(** * ExpenseTracker: a shallow embedding of [exam folder/examcode.py]

    The development follows the Python class [ExpenseTracker] method by
    method.  The object state ([self.filename], [self.data]), the file
    written by [to_csv] and the console are threaded through a small state
    and exception monad; [ValueError] is the only exception the class
    catches.

    Library calls are modelled as follows.
    - [str.strip], [str.lower], [datetime.strptime] with ["%Y-%m-%d"] and
      [float] are written out on ASCII text.
    - A [float] is an exact rational or one of the special values
      [inf], [-inf], [nan]; binary64 rounding, overflow and underflow are
      not modelled.
    - pandas is modelled as of its 2.x releases.  A [Timestamp] is a
      calendar date within the nanosecond range, or [NaT];
      [pd.to_datetime] is the ISO [year-month-day] reader, and every other
      text is [NaT] under [errors="coerce"].
    - A CSV file is the table of its text cells (quoting and line
      structure are not modelled); [read_csv] reads every cell as text
      and maps the default missing-value markers to [NaN]; its per-column
      dtype inference is not modelled, and the theorem about reloading is
      stated for text that this inference leaves alone. *)

From Stdlib Require Import ZArith QArith List String Ascii Bool Lia Sorted.
Import ListNotations.

Local Open Scope string_scope.
Local Open Scope Z_scope.

(** ** Text *)

Module Text.

Definition code (c : ascii) : N := N_of_ascii c.

Definition in_range (lo hi : N) (c : ascii) : bool :=
  (lo <=? code c)%N && (code c <=? hi)%N.

(** [str.isspace] on one ASCII character: TAB..CR, FS..US and the space. *)
Definition isspace (c : ascii) : bool :=
  in_range 9 13 c || in_range 28 32 c.

Definition isdigit (c : ascii) : bool := in_range 48 57 c.

Definition digit_val (c : ascii) : Z := Z.of_N (code c) - 48.

Definition lower_ascii (c : ascii) : ascii :=
  if in_range 65 90 c then ascii_of_N (code c + 32) else c.

(** [str.lower] *)
Fixpoint lower (s : string) : string :=
  match s with
  | EmptyString => EmptyString
  | String c r => String (lower_ascii c) (lower r)
  end.

(** [str.lstrip] *)
Fixpoint lstrip (s : string) : string :=
  match s with
  | EmptyString => EmptyString
  | String c r => if isspace c then lstrip r else s
  end.

(** [str.rstrip] *)
Fixpoint rstrip (s : string) : string :=
  match s with
  | EmptyString => EmptyString
  | String c r =>
      match rstrip r with
      | EmptyString => if isspace c then EmptyString else String c EmptyString
      | r' => String c r'
      end
  end.

(** [str.strip] *)
Definition strip (s : string) : string := rstrip (lstrip s).

(** No character is white space. *)
Fixpoint no_space (s : string) : bool :=
  match s with
  | EmptyString => true
  | String c r => negb (isspace c) && no_space r
  end.

End Text.

(** ** Dates *)

Record date := mkdate { year : Z; month : Z; day : Z }.

(** A pandas timestamp: a date, or [NaT]. *)
Definition Timestamp := option date.
Definition NaT : Timestamp := None.

Definition is_leap (y : Z) : bool :=
  (y mod 4 =? 0) && (negb (y mod 100 =? 0) || (y mod 400 =? 0)).

Definition days_in_month (y m : Z) : Z :=
  if m =? 2 then (if is_leap y then 29 else 28)
  else if (m =? 4) || (m =? 6) || (m =? 9) || (m =? 11) then 30
  else 31.

(** What the constructor [datetime.date(y, m, d)] accepts. *)
Definition valid_date (d : date) : bool :=
  (1 <=? year d) && (year d <=? 9999) &&
  (1 <=? month d) && (month d <=? 12) &&
  (1 <=? day d) && (day d <=? days_in_month (year d) (month d)).

Definition date_leb (a b : date) : bool :=
  (year a <? year b) ||
  ((year a =? year b) &&
   ((month a <? month b) || ((month a =? month b) && (day a <=? day b)))).

(** ** [datetime.strptime(text, "%Y-%m-%d")]

    CPython compiles the format to the regular expression
    [(?P<Y>\d\d\d\d)-(?P<m>1[0-2]|0[1-9]|[1-9])-(?P<d>3[01]|[12]\d|0[1-9]|[1-9]| [1-9])],
    matches it at the start of the text, rejects text left over after the
    match, and then builds the date, which checks the day against the
    month.  Every failure is a [ValueError]. *)

Module Strptime.
Import Text.

Section Regex.
Context {A : Type}.

(** First alternative that lets the rest of the pattern match. *)
Definition orelse (x y : option A) : option A :=
  match x with Some _ => x | None => y end.

Definition lit (c : ascii) (k : string -> option A) (s : string) : option A :=
  match s with
  | String a r => if Ascii.eqb a c then k r else None
  | EmptyString => None
  end.

(** Two characters, the first in [[l1-h1]], the second in [[l2-h2]]. *)
Definition two (l1 h1 l2 h2 : N) (k : Z -> string -> option A) (s : string)
  : option A :=
  match s with
  | String a (String b r) =>
      if in_range l1 h1 a && in_range l2 h2 b
      then k (10 * digit_val a + digit_val b) r else None
  | _ => None
  end.

(** One character in [[1-9]]. *)
Definition one (k : Z -> string -> option A) (s : string) : option A :=
  match s with
  | String a r => if in_range 49 57 a then k (digit_val a) r else None
  | EmptyString => None
  end.

(** [\d\d\d\d] *)
Definition re_Y (k : Z -> string -> option A) (s : string) : option A :=
  match s with
  | String a (String b (String c (String d r))) =>
      if isdigit a && isdigit b && isdigit c && isdigit d
      then k (1000 * digit_val a + 100 * digit_val b
              + 10 * digit_val c + digit_val d) r
      else None
  | _ => None
  end.

(** [1[0-2]|0[1-9]|[1-9]] *)
Definition re_m (k : Z -> string -> option A) (s : string) : option A :=
  orelse (two 49 49 48 50 k s)
    (orelse (two 48 48 49 57 k s) (one k s)).

(** [3[01]|[12]\d|0[1-9]|[1-9]| [1-9]] *)
Definition re_d (k : Z -> string -> option A) (s : string) : option A :=
  orelse (two 51 51 48 49 k s)
    (orelse (two 49 50 48 57 k s)
       (orelse (two 48 48 49 57 k s)
          (orelse (one k s) (lit " " (one k) s)))).
End Regex.

(** The match: the three groups and the text after the match. *)
Definition regex_match (s : string) : option (Z * Z * Z * string) :=
  re_Y (fun y => lit "-" (re_m (fun m => lit "-"
    (re_d (fun d rest => Some (y, m, d, rest)))))) s.

(** [None] stands for [ValueError]. *)
Definition strptime (s : string) : option date :=
  match regex_match s with
  | Some (y, m, d, EmptyString) =>
      let dt := mkdate y m d in
      if valid_date dt then Some dt else None
  | _ => None
  end.

End Strptime.

(** ** Decimal digits *)

Module Digits.
Import Text.

Definition digit_char (z : Z) : ascii := ascii_of_N (Z.to_N z + 48).

(** The last [k] decimal digits of [x], in front of [acc]. *)
Fixpoint fixed (k : nat) (x : Z) (acc : string) : string :=
  match k with
  | O => acc
  | S k' => fixed k' (x / 10) (String (digit_char (x mod 10)) acc)
  end.

(** The number a digit string denotes, continuing from [acc]. *)
Fixpoint value (s : string) (acc : Z) : Z :=
  match s with
  | EmptyString => acc
  | String c r => value r (10 * acc + digit_val c)
  end.

(** Leading zeros removed, the last digit always kept. *)
Fixpoint drop_zeros (s : string) : string :=
  match s with
  | String c (String _ _ as r) => if Ascii.eqb c "0" then drop_zeros r else s
  | _ => s
  end.

(** Every character is a decimal digit. *)
Fixpoint all_digits (s : string) : bool :=
  match s with
  | EmptyString => true
  | String c r => isdigit c && all_digits r
  end.

(** Text at which a run of digits ends: the end, or a character that is
    neither a digit nor an underscore. *)
Definition ends_number (rest : string) : bool :=
  match rest with
  | EmptyString => true
  | String c _ => negb (isdigit c) && negb (Ascii.eqb c "_")
  end.

(** A natural number without leading zeros. *)
Definition natural (x : Z) : string :=
  drop_zeros (fixed (S (Z.to_nat (Z.log2 x))) x EmptyString).

End Digits.

(** ** Floats *)

Inductive pyfloat :=
| Fin (q : Q)
| Inf (negative : bool)
| NaN.

Module PyFloat.
Import Text.

Definition zero : pyfloat := Fin 0%Q.

Definition isnan (x : pyfloat) : bool :=
  match x with NaN => true | _ => false end.

(** [x <= y]; every comparison with [nan] is false. *)
Definition leb (x y : pyfloat) : bool :=
  match x, y with
  | NaN, _ | _, NaN => false
  | Inf true, _ => true
  | _, Inf false => true
  | Inf false, _ => false
  | _, Inf true => false
  | Fin p, Fin q => Qle_bool p q
  end.

(** [x + y] *)
Definition add (x y : pyfloat) : pyfloat :=
  match x, y with
  | NaN, _ | _, NaN => NaN
  | Inf a, Inf b => if Bool.eqb a b then Inf a else NaN
  | Inf a, Fin _ | Fin _, Inf a => Inf a
  | Fin p, Fin q => Fin (p + q)%Q
  end.

(** [x / n] for a positive count [n]. *)
Definition div_count (x : pyfloat) (n : nat) : pyfloat :=
  match x with
  | Fin p => Fin (p / inject_Z (Z.of_nat n))%Q
  | _ => x
  end.

(** [bool(x)]: a number is false exactly when it is zero. *)
Definition truthy (x : pyfloat) : bool :=
  match x with
  | Fin p => negb (Qeq_bool p 0%Q)
  | _ => true
  end.

(** The same value: equal rationals, the same infinity, or both [nan]. *)
Definition same (x y : pyfloat) : Prop :=
  match x, y with
  | Fin p, Fin q => (p == q)%Q
  | Inf a, Inf b => a = b
  | NaN, NaN => True
  | _, _ => False
  end.

(** [m * 10 ^ e] *)
Definition scale10 (m e : Z) : Q :=
  if 0 <=? e then inject_Z (m * 10 ^ e) else (m # Z.to_pos (10 ^ (- e)))%Q.

(** A [digitpart]: digits, single underscores allowed between two digits.
    Returns the digits read and the text that follows. *)
Fixpoint digitpart (s : string) : string * string :=
  match s with
  | String c r =>
      if isdigit c then
        let (ds, rest) :=
          match r with
          | String u (String c' _ as t) =>
              if Ascii.eqb u "_" && isdigit c' then digitpart t
              else digitpart r
          | _ => digitpart r
          end in
        (String c ds, rest)
      else (EmptyString, s)
  | EmptyString => (EmptyString, s)
  end.

(** A leading [+] or [-]: whether the sign is negative, and the rest. *)
Definition sign (s : string) : bool * string :=
  match s with
  | String c r =>
      if Ascii.eqb c "-" then (true, r)
      else if Ascii.eqb c "+" then (false, r)
      else (false, s)
  | EmptyString => (false, s)
  end.

(** The exponent part: nothing, or [e] or [E], a sign and a digitpart that
    ends the text. *)
Definition exponent (s : string) : option Z :=
  match s with
  | EmptyString => Some 0
  | String c r =>
      if Ascii.eqb c "e" || Ascii.eqb c "E" then
        let (neg, r1) := sign r in
        match digitpart r1 with
        | (String _ _ as ds, EmptyString) =>
            Some (if neg then - Digits.value ds 0 else Digits.value ds 0)
        | _ => None
        end
      else None
  end.

(** An unsigned decimal literal: [digits[.digits][exponent]] or
    [.digits[exponent]], as mantissa and power of ten. *)
Definition decimal (s : string) : option (Z * Z) :=
  let (ip, r1) := digitpart s in
  let (fp, r2) :=
    match r1 with
    | String c r => if Ascii.eqb c "." then digitpart r else (EmptyString, r1)
    | EmptyString => (EmptyString, r1)
    end in
  match ip, fp with
  | EmptyString, EmptyString => None
  | _, _ =>
      match exponent r2 with
      | Some e =>
          Some (Digits.value (ip ++ fp) 0, e - Z.of_nat (String.length fp))
      | None => None
      end
  end.

(** [float(text)]; [None] stands for [ValueError]. *)
Definition of_str (s : string) : option pyfloat :=
  let (neg, body) := sign (strip s) in
  let word := lower body in
  if String.eqb word "inf" || String.eqb word "infinity" then Some (Inf neg)
  else if String.eqb word "nan" then Some NaN
  else
    match decimal body with
    | Some (m, e) => Some (Fin (scale10 (if neg then - m else m) e))
    | None => None
    end.

(** The number of fraction digits [repr] prints: the least [k >= 1] with
    [n * 10 ^ k] a multiple of [d], searched up to [fuel] more digits. *)
Fixpoint frac_digits (n d : Z) (k : nat) (fuel : nat) : nat :=
  match fuel with
  | O => k
  | S fuel' =>
      if (n * 10 ^ Z.of_nat k) mod d =? 0 then k
      else frac_digits n d (S k) fuel'
  end.

(** [repr(x)] in fixed notation, as [to_csv] writes a float cell. *)
Definition repr (x : pyfloat) : string :=
  match x with
  | NaN => "nan"
  | Inf true => "-inf"
  | Inf false => "inf"
  | Fin q =>
      let n := Z.abs (Qnum q) in
      let d := Zpos (Qden q) in
      let k := frac_digits n d 1 (Z.to_nat (Z.log2 d)) in
      let m := n * 10 ^ Z.of_nat k / d in
      (if Qnum q <? 0 then "-" else "")
        ++ Digits.natural (m / 10 ^ Z.of_nat k)
        ++ "." ++ Digits.fixed k m EmptyString
  end.

End PyFloat.

(** ** Records and frames *)

(** One row of [self.data] once its columns are converted: a timestamp,
    a float, the category text and the description, which is [None]
    where the frame holds [NaN]. *)
Record row := mkrow {
  Date : Timestamp;
  Amount : pyfloat;
  Category : string;
  Description : option string
}.

Definition DataFrame := list row.

(** One row as [read_csv] returns it: every cell is text, or [None] where
    the file holds a missing-value marker. *)
Record raw_row := mkraw {
  raw_Date : option string;
  raw_Amount : option string;
  raw_Category : option string;
  raw_Description : option string
}.

(** One line of the file below the header: four text cells. *)
Record csv_row := mkcsv {
  csv_Date : string;
  csv_Amount : string;
  csv_Category : string;
  csv_Description : string
}.

Definition csv_file := list csv_row.

Module Pandas.
Import Text.

(** The default [na_values] of [read_csv]. *)
Definition na_values : list string :=
  [""; "#N/A"; "#N/A N/A"; "#NA"; "-1.#IND"; "-1.#QNAN"; "-NaN"; "-nan";
   "1.#IND"; "1.#QNAN"; "<NA>"; "N/A"; "NA"; "NULL"; "NaN"; "None"; "n/a";
   "nan"; "null"].

(** The texts [read_csv] takes for truth values by default. *)
Definition true_values : list string := ["True"; "TRUE"; "true"].
Definition false_values : list string := ["False"; "FALSE"; "false"].

Definition isin (s : string) (l : list string) : bool :=
  existsb (String.eqb s) l.

Definition read_cell (s : string) : option string :=
  if isin s na_values then None else Some s.

Definition read_row (r : csv_row) : raw_row :=
  mkraw (read_cell (csv_Date r)) (read_cell (csv_Amount r))
        (read_cell (csv_Category r)) (read_cell (csv_Description r)).

Definition read_csv (f : csv_file) : list raw_row := map read_row f.

(** The first and the last day a nanosecond [Timestamp] holds at
    midnight. *)
Definition Timestamp_min : date := mkdate 1677 9 22.
Definition Timestamp_max : date := mkdate 2262 4 11.

Definition in_bounds (d : date) : bool :=
  date_leb Timestamp_min d && date_leb d Timestamp_max.

(** [pd.to_datetime(text)]: [NaT] stands for the result under
    [errors="coerce"] and for [ValueError] under [errors="raise"], of
    which [OutOfBoundsDatetime] is a subclass. *)
Definition to_datetime (s : string) : Timestamp :=
  match Strptime.strptime s with
  | Some d => if in_bounds d then Some d else NaT
  | None => NaT
  end.

(** [pd.to_datetime(column, errors="coerce")] on one cell *)
Definition to_datetime_cell (c : option string) : Timestamp :=
  match c with Some s => to_datetime s | None => NaT end.

(** [pd.to_numeric(column, errors="coerce")] on one cell *)
Definition to_numeric_cell (c : option string) : pyfloat :=
  match c with
  | Some s => match PyFloat.of_str s with Some x => x | None => NaN end
  | None => NaN
  end.

(** [column.astype(str)] on one cell: a missing cell becomes the text
    [nan]. *)
Definition astype_str (c : option string) : string :=
  match c with Some s => s | None => "nan" end.

(** A row [dropna] keeps: no cell is [NaT] or [NaN]. *)
Definition notna (r : row) : bool :=
  match Date r, Amount r, Description r with
  | Some _, Fin _, Some _ | Some _, Inf _, Some _ => true
  | _, _, _ => false
  end.

Definition dropna (df : DataFrame) : DataFrame := filter notna df.

(** A timestamp as [to_csv] writes it. *)
Definition isoformat (d : date) : string :=
  Digits.fixed 4 (year d) ("-" ++ Digits.fixed 2 (month d)
    ("-" ++ Digits.fixed 2 (day d) EmptyString)).

Definition write_row (r : row) : csv_row :=
  mkcsv (match Date r with Some d => isoformat d | None => "" end)
        (if PyFloat.isnan (Amount r) then "" else PyFloat.repr (Amount r))
        (Category r)
        (match Description r with Some s => s | None => "" end).

(** The lines [df.to_csv(path, index=False)] writes below the header. *)
Definition to_csv (df : DataFrame) : csv_file := map write_row df.

(** [x >= y] on timestamps; false where either side is [NaT]. *)
Definition ts_ge (x y : Timestamp) : bool :=
  match x, y with
  | Some a, Some b => date_leb b a
  | _, _ => false
  end.

Definition ts_le (x y : Timestamp) : bool := ts_ge y x.

(** [Series.sum()], which [np.sum] of a column calls: [NaN] is skipped. *)
Definition sum (xs : list pyfloat) : pyfloat :=
  fold_left PyFloat.add (filter (fun x => negb (PyFloat.isnan x)) xs)
            PyFloat.zero.

(** [Series.mean()], which [np.mean] of a column calls: the sum over the
    count of the cells that are not [NaN]. *)
Definition mean (xs : list pyfloat) : pyfloat :=
  match filter (fun x => negb (PyFloat.isnan x)) xs with
  | [] => NaN
  | ys => PyFloat.div_count (sum xs) (List.length ys)
  end.

(** One more amount in the group of [key]; groups stay sorted by key. *)
Fixpoint group_add (key : string) (x : pyfloat)
  (groups : list (string * pyfloat)) : list (string * pyfloat) :=
  let x0 := if PyFloat.isnan x then PyFloat.zero else x in
  match groups with
  | [] => [(key, PyFloat.add PyFloat.zero x0)]
  | (k, total) :: rest =>
      match String.compare key k with
      | Lt => (key, PyFloat.add PyFloat.zero x0) :: groups
      | Eq => (k, PyFloat.add total x0) :: rest
      | Gt => (k, total) :: group_add key x rest
      end
  end.

(** [df.groupby("Category")["Amount"].sum()] *)
Definition groupby_sum (df : DataFrame) : list (string * pyfloat) :=
  fold_left (fun g r => group_add (Category r) (Amount r) g) df [].

End Pandas.

(** ** State, exceptions and the console *)

(** The tracker object ([self.filename], [self.data]) together with the
    files on disk and the lines printed so far. *)
Record state := mkstate {
  filename : string;
  data : DataFrame;
  files : string -> option csv_file;
  console : list string
}.

(** The exceptions that occur: [ValueError], which [add_expense] catches,
    and [OSError], which a failed write raises and nothing catches. *)
Inductive exn := ValueError | OSError.

Inductive outcome (A : Type) :=
| Normal (a : A) (s : state)
| Raised (e : exn) (s : state).
Arguments Normal {A} a s.
Arguments Raised {A} e s.

Definition M (A : Type) := state -> outcome A.

Definition ret {A} (a : A) : M A := fun s => Normal a s.

Definition bind {A B} (m : M A) (f : A -> M B) : M B :=
  fun s => match m s with
           | Normal a s' => f a s'
           | Raised e s' => Raised e s'
           end.

Definition raise {A} (e : exn) : M A := fun s => Raised e s.

(** [try: body except ValueError: handler] *)
Definition try_except {A} (body : M A) (handler : M A) : M A :=
  fun s => match body s with
           | Normal a s' => Normal a s'
           | Raised ValueError s' => handler s'
           | Raised OSError s' => Raised OSError s'
           end.

Declare Scope py_scope.
Delimit Scope py_scope with py.
Notation "x <- m ;; k" := (bind m (fun x => k))
  (at level 61, m at next level, right associativity) : py_scope.
Notation "m ;; k" := (bind m (fun _ => k))
  (at level 61, right associativity) : py_scope.

(** A library call that raises [ValueError] where the model has [None]. *)
Definition or_raise {A} (o : option A) : M A :=
  match o with Some a => ret a | None => raise ValueError end.

Definition print (line : string) : M unit :=
  fun s => Normal tt (mkstate (filename s) (data s) (files s)
                              (console s ++ [line])%list).

Definition get_data : M DataFrame := fun s => Normal (data s) s.

Definition set_data (df : DataFrame) : M unit :=
  fun s => Normal tt (mkstate (filename s) df (files s) (console s)).

Definition write_file (name : string) (f : csv_file)
  (fs : string -> option csv_file) : string -> option csv_file :=
  fun n => if String.eqb n name then Some f else fs n.

(** [self.data.to_csv(self.filename, index=False)] *)
Definition data_to_csv : M unit :=
  fun s => Normal tt (mkstate (filename s) (data s)
                        (write_file (filename s) (Pandas.to_csv (data s))
                                    (files s))
                        (console s)).

(** ** The class [ExpenseTracker] *)

Module ExpenseTracker.
Import Text.
Local Open Scope py_scope.

Definition msg_amount : string := "Amount must be positive.".
Definition msg_date : string := "Invalid date format! Use YYYY-MM-DD".
Definition msg_added : string := " Expense added successfully".
Definition msg_no_data : string := "No data available.".

(** [_clean_data]: the frame is converted column by column and the rows
    with a missing cell are dropped; an empty frame is left as it is. *)
Definition _clean_data (df : list raw_row) : DataFrame :=
  match df with
  | [] => []
  | _ =>
      Pandas.dropna
        (map (fun r =>
                mkrow (Pandas.to_datetime_cell (raw_Date r))
                      (Pandas.to_numeric_cell (raw_Amount r))
                      (strip (Pandas.astype_str (raw_Category r)))
                      (raw_Description r)) df)
  end.

(** [__init__]: the object built over the files [fs], with what was
    printed before on [out]. *)
Definition __init__ (name : string) (fs : string -> option csv_file)
  (out : list string) : state :=
  match fs name with
  | Some f => mkstate name (_clean_data (Pandas.read_csv f)) fs out
  | None =>
      mkstate name (_clean_data [])
              (write_file name (Pandas.to_csv []) fs) out
  end.

Definition add_expense (date amount category description : string)
  : M bool :=
  try_except
    (_ <- or_raise (Strptime.strptime date) ;;
     a <- or_raise (PyFloat.of_str amount) ;;
     if PyFloat.leb a PyFloat.zero then
       print msg_amount ;;
       ret false
     else
       d <- or_raise (Pandas.to_datetime date) ;;
       a' <- or_raise (PyFloat.of_str amount) ;;
       let new_row := mkrow (Some d) a' (strip category) (Some description) in
       df <- get_data ;;
       set_data (df ++ [new_row])%list ;;
       data_to_csv ;;
       print msg_added ;;
       ret true)
    (print msg_date ;;
     ret false).

Inductive summary :=
| NoData (message : string)
| Stats (total average : pyfloat) (by_category : list (string * pyfloat)).

Definition get_summary : M summary :=
  df <- get_data ;;
  match df with
  | [] => ret (NoData msg_no_data)
  | _ =>
      let total := Pandas.sum (map Amount df) in
      let average := Pandas.mean (map Amount df) in
      let category_summary := Pandas.groupby_sum df in
      ret (Stats total average category_summary)
  end.

(** [if bound:] for an optional number: [None] and zero are false. *)
Definition supplied (bound : option pyfloat) : option pyfloat :=
  match bound with
  | Some x => if PyFloat.truthy x then Some x else None
  | None => None
  end.

Definition normalize (c : string) : string := lower (strip c).

Definition filter_expenses (start_date end_date : option string)
  (categories : option (list string)) (min_amount max_amount : option pyfloat)
  : M DataFrame :=
  df <- get_data ;;
  let df := map (fun r => mkrow (Date r) (Amount r) (normalize (Category r))
                                (Description r)) df in
  let df := match start_date with
            | Some s =>
                filter (fun r => Pandas.ts_ge (Date r) (Pandas.to_datetime s))
                       df
            | None => df
            end in
  let df := match end_date with
            | Some s =>
                filter (fun r => Pandas.ts_le (Date r) (Pandas.to_datetime s))
                       df
            | None => df
            end in
  let df := match categories with
            | Some cs =>
                let categories := map normalize cs in
                filter (fun r => Pandas.isin (Category r) categories) df
            | None => df
            end in
  let df := match supplied min_amount with
            | Some lo => filter (fun r => PyFloat.leb lo (Amount r)) df
            | None => df
            end in
  let df := match supplied max_amount with
            | Some hi => filter (fun r => PyFloat.leb (Amount r) hi) df
            | None => df
            end in
  ret df.

End ExpenseTracker.

(** ** Vocabulary of the specification *)

Module Spec.
Import ExpenseTracker.

(** The error kinds are the lines [add_expense] prints. *)
Definition InvalidDateFormat : string := msg_date.
Definition InvalidAmount : string := msg_amount.

(** [after] differs from [before] by one more printed line. *)
Definition reported (kind : string) (before after : state) : Prop :=
  console after = (console before ++ [kind])%list.

(** A number strictly greater than zero. *)
Definition positive (x : pyfloat) : bool :=
  match x with
  | Fin q => 0 <? Qnum q
  | Inf negative => negb negative
  | NaN => false
  end.

(** The number of rows in the file of the tracker. *)
Definition stored_rows (s : state) : nat :=
  match files s (filename s) with
  | Some f => List.length f
  | None => O
  end.

(** The row of the working copy [filter_expenses] makes of a stored row. *)
Definition working_copy (r : row) : row :=
  mkrow (Date r) (Amount r) (normalize (Category r)) (Description r).

(** The five selections of [filter_expenses], one per argument. *)
Definition by_start (start_date : option string) (df : DataFrame) : DataFrame :=
  match start_date with
  | Some s => filter (fun r => Pandas.ts_ge (Date r) (Pandas.to_datetime s)) df
  | None => df
  end.

Definition by_end (end_date : option string) (df : DataFrame) : DataFrame :=
  match end_date with
  | Some s => filter (fun r => Pandas.ts_le (Date r) (Pandas.to_datetime s)) df
  | None => df
  end.

Definition by_categories (categories : option (list string)) (df : DataFrame)
  : DataFrame :=
  match categories with
  | Some cs => filter (fun r => Pandas.isin (Category r) (map normalize cs)) df
  | None => df
  end.

Definition by_min (min_amount : option pyfloat) (df : DataFrame) : DataFrame :=
  match supplied min_amount with
  | Some lo => filter (fun r => PyFloat.leb lo (Amount r)) df
  | None => df
  end.

Definition by_max (max_amount : option pyfloat) (df : DataFrame) : DataFrame :=
  match supplied max_amount with
  | Some hi => filter (fun r => PyFloat.leb (Amount r) hi) df
  | None => df
  end.

(** The category of the row is one of the names, each trimmed and in
    lower case. *)
Definition named_in (names : list string) (r : row) : bool :=
  existsb (fun c => String.eqb (Category r) (Text.lower (Text.strip c)))
          names.

(** A finite amount whose decimal expansion [repr] prints in full. *)
Definition exact (q : Q) : bool :=
  let n := Z.abs (Qnum q) in
  let d := Zpos (Qden q) in
  (n * 10 ^ Z.of_nat (PyFloat.frac_digits n d 1 (Z.to_nat (Z.log2 d))))
    mod d =? 0.

(** Text that [read_csv] returns as it stands: not a missing-value
    marker, and neither the text of a truth value nor the text of a
    number, which the dtype inference of [read_csv] may rewrite. *)
Definition plain (s : string) : bool :=
  negb (Pandas.isin s Pandas.na_values) &&
  negb (Pandas.isin s (Pandas.true_values ++ Pandas.false_values)) &&
  match PyFloat.of_str s with Some _ => false | None => true end.

(** Rows with the same content: amounts are compared as numbers. *)
Definition same_row (a b : row) : Prop :=
  Date a = Date b /\ PyFloat.same (Amount a) (Amount b) /\
  Category a = Category b /\ Description a = Description b.

(** A file that holds a row [_clean_data] drops. *)
Definition legacy_file : csv_file :=
  [mkcsv "2024-01-05" "100" "Food" "lunch";
   mkcsv "someday" "12" "Misc" "no date"].

Definition legacy_files : string -> option csv_file :=
  write_file "expenses.csv" legacy_file (fun _ => None).

Definition no_files : string -> option csv_file := fun _ => None.

(** The collection of the scenario with two expenses. *)
Definition two_expenses : state :=
  mkstate "expenses.csv"
    [mkrow (Some (mkdate 2024 1 5)) (Fin 100) "Food" (Some "lunch");
     mkrow (Some (mkdate 2024 1 6)) (Fin 50) "Transport" (Some "bus")]
    no_files [].

End Spec.

(** ** Vocabulary for the behaviour of the operations *)

Module Behaviour.
Import ExpenseTracker Spec.

(** The state a call ends in, whether it returns or raises. *)
Definition state_of {A} (o : outcome A) : state :=
  match o with
  | Normal _ s => s
  | Raised _ s => s
  end.

(** One [add_expense] call per tuple of date, amount, category and
    description, in order; a call that raises ends the series. *)
Fixpoint add_all (inputs : list (string * string * string * string))
  (s : state) : state :=
  match inputs with
  | [] => s
  | (date, amount, category, description) :: rest =>
      match add_expense date amount category description s with
      | Normal _ s' => add_all rest s'
      | Raised _ s' => s'
      end
  end.

(** The tracker with the frame [df] in place of its collection. *)
Definition with_data (df : DataFrame) (s : state) : state :=
  mkstate (filename s) df (files s) (console s).

(** The state once [line] is written on the console. *)
Definition printed (line : string) (s : state) : state :=
  mkstate (filename s) (data s) (files s) (console s ++ [line])%list.

(** The tracker of [s'] is the tracker of [s]: the same file name, the
    same collection and the same files. *)
Definition untouched (s s' : state) : Prop :=
  filename s' = filename s /\ data s' = data s /\ files s' = files s.

(** What [add_expense] checks of a record before it stores it: a
    calendar date that exists, an amount that is not less than or equal
    to zero, a trimmed category and a description. *)
Definition checked (r : row) : Prop :=
  (exists d, Date r = Some d /\ valid_date d = true) /\
  PyFloat.leb (Amount r) PyFloat.zero = false /\
  Text.strip (Category r) = Category r /\
  Description r <> None.

(** Two entries of a breakdown in ascending order of their keys. *)
Definition key_lt (a b : string * pyfloat) : Prop :=
  String.compare (fst a) (fst b) = Lt.

(** The test the five selections of [filter_expenses] make together. *)
Definition keeps (start_date end_date : option string)
  (categories : option (list string)) (min_amount max_amount : option pyfloat)
  (r : row) : bool :=
  match start_date with
  | Some s => Pandas.ts_ge (Date r) (Pandas.to_datetime s)
  | None => true
  end &&
  match end_date with
  | Some s => Pandas.ts_le (Date r) (Pandas.to_datetime s)
  | None => true
  end &&
  match categories with
  | Some cs => Pandas.isin (Category r) (map normalize cs)
  | None => true
  end &&
  match supplied min_amount with
  | Some lo => PyFloat.leb lo (Amount r)
  | None => true
  end &&
  match supplied max_amount with
  | Some hi => PyFloat.leb (Amount r) hi
  | None => true
  end.

End Behaviour.

(** ** The report, the charts and the menu

    What the libraries render is not modelled.  The texts of
    [f"{x:.2f}"], [str(series)], [str(dict)] and [str(frame)] are the
    fields of a [renderer]; drawing a chart with matplotlib and seaborn
    is a field too, which can do no more than write lines on the
    console. *)

Module Driver.
Import Text ExpenseTracker.
Local Open Scope py_scope.

Inductive chart := Bar | Line | Pie | Histogram.

Record renderer := mkrenderer {
  format_2f : pyfloat -> string;
  str_series : list (string * pyfloat) -> string;
  str_stats : pyfloat -> pyfloat -> list (string * pyfloat) -> string;
  str_frame : DataFrame -> string;
  draw : chart -> DataFrame -> list string
}.

Definition newline : string := String (ascii_of_N 10) EmptyString.

Definition rupee : string :=
  String (ascii_of_N 226) (String (ascii_of_N 130)
    (String (ascii_of_N 185) EmptyString)).

Definition msg_no_chart : string := "No data for visualization.".

Definition generate_report (R : renderer) : M string :=
  summary <- get_summary ;;
  match summary with
  | NoData message => ret message
  | Stats total average by_category =>
      ret (newline
           ++ "------------ EXPENSE REPORT ---------------" ++ newline
           ++ "Total Spending: " ++ rupee ++ format_2f R total ++ newline
           ++ "Average Spending: " ++ rupee ++ format_2f R average ++ newline
           ++ newline
           ++ "Category Breakdown:" ++ newline
           ++ str_series R by_category ++ newline
           ++ "-------------------------------------------" ++ newline)
  end.

Fixpoint print_all (lines : list string) : M unit :=
  match lines with
  | [] => ret tt
  | line :: rest => print line ;; print_all rest
  end.

(** The four chart methods share their guard. *)
Definition plot (R : renderer) (kind : chart) : M unit :=
  df <- get_data ;;
  match df with
  | [] => print msg_no_chart
  | _ => print_all (draw R kind df)
  end.

Definition plot_category_bar (R : renderer) : M unit := plot R Bar.
Definition plot_time_series (R : renderer) : M unit := plot R Line.
Definition plot_pie_by_category (R : renderer) : M unit := plot R Pie.
Definition plot_histogram (R : renderer) : M unit := plot R Histogram.

(** [str.split(sep)] for a separator of one character. *)
Fixpoint split (sep : ascii) (s : string) : list string :=
  match s with
  | EmptyString => [EmptyString]
  | String c r =>
      if Ascii.eqb c sep then EmptyString :: split sep r
      else match split sep r with
           | x :: xs => String c x :: xs
           | [] => [String c EmptyString]
           end
  end.

(** How a run of the menu stands: it goes on with the lines of input that
    are left, it ended on [EOFError] because [input] found no line, or an
    exception of a method came through. *)
Inductive run (A : Type) :=
| Done (a : A) (rest : list string) (s : state)
| EndOfInput (s : state)
| Uncaught (e : exn) (s : state).
Arguments Done {A} a rest s.
Arguments EndOfInput {A} s.
Arguments Uncaught {A} e s.

Definition IO (A : Type) := list string -> state -> run A.

Definition io_ret {A} (a : A) : IO A := fun inp s => Done a inp s.

Definition io_bind {A B} (m : IO A) (f : A -> IO B) : IO B :=
  fun inp s =>
    match m inp s with
    | Done a rest s' => f a rest s'
    | EndOfInput s' => EndOfInput s'
    | Uncaught e s' => Uncaught e s'
    end.

Declare Scope io_scope.
Delimit Scope io_scope with io.
Notation "x <- m ;; k" := (io_bind m (fun x => k))
  (at level 61, m at next level, right associativity) : io_scope.
Notation "m ;; k" := (io_bind m (fun _ => k))
  (at level 61, right associativity) : io_scope.

(** A method call of the tracker. *)
Definition call {A} (m : M A) : IO A :=
  fun inp s =>
    match m s with
    | Normal a s' => Done a inp s'
    | Raised e s' => Uncaught e s'
    end.

(** [input(prompt)]: the prompt is written, then one line is read. *)
Definition input (prompt : string) : IO string :=
  fun inp s =>
    match print prompt s with
    | Normal _ s' =>
        match inp with
        | line :: rest => Done line rest s'
        | [] => EndOfInput s'
        end
    | Raised e s' => Uncaught e s'
    end.

Definition say (line : string) : IO unit := call (print line).

(** [text.lower() in ("", "blank")] *)
Definition is_blank (text : string) : bool :=
  Pandas.isin (lower text) [EmptyString; "blank"].

Local Open Scope io_scope.

(** One turn of the [while True] loop of [main]; [false] stands for
    [break]. *)
Definition turn (R : renderer) : IO bool :=
  say (newline ++ "------------ Smart Expense Tracker-------------") ;;
  say "1. Add Expense" ;;
  say "2. View Summary" ;;
  say "3. Filter Expenses" ;;
  say "4. Generate Report" ;;
  say "5. Visualizations" ;;
  say "6. Exit" ;;
  choice <- input "Enter choice: " ;;
  if String.eqb choice "1" then
    date <- input "Enter date (YYYY-MM-DD): " ;;
    amount <- input "Enter amount: " ;;
    category <- input "Enter category: " ;;
    description <- input "Enter description: " ;;
    call (add_expense date amount category description) ;;
    io_ret true
  else if String.eqb choice "2" then
    say (newline ++ "--- Summary ---") ;;
    summary <- call get_summary ;;
    say (match summary with
         | NoData message => message
         | Stats total average by_category =>
             str_stats R total average by_category
         end) ;;
    io_ret true
  else if String.eqb choice "3" then
    start <- input "Start Date (YYYY-MM-DD or blank): " ;;
    let start := strip start in
    let start := if is_blank start then None else Some start in
    end_ <- input "End Date (YYYY-MM-DD or blank): " ;;
    let end_ := strip end_ in
    let end_ := if is_blank end_ then None else Some end_ in
    cat <- input "Categories comma-separated (blank for all): " ;;
    let cat := strip cat in
    let cats := if negb (is_blank cat) then Some (split "," cat) else None in
    filtered <- call (filter_expenses start end_ cats None None) ;;
    say (str_frame R filtered) ;;
    io_ret true
  else if String.eqb choice "4" then
    report <- call (generate_report R) ;;
    say report ;;
    io_ret true
  else if String.eqb choice "5" then
    say "1. Bar Chart" ;;
    say "2. Line Chart" ;;
    say "3. Pie Chart" ;;
    say "4. Histogram" ;;
    opt <- input "Choose: " ;;
    (if String.eqb opt "1" then call (plot_category_bar R)
     else if String.eqb opt "2" then call (plot_time_series R)
     else if String.eqb opt "3" then call (plot_pie_by_category R)
     else if String.eqb opt "4" then call (plot_histogram R)
     else io_ret tt) ;;
    io_ret true
  else if String.eqb choice "6" then
    io_ret false
  else
    say "Invalid choice, try again!" ;;
    io_ret true.

(** The loop of [main], for at most [fuel] turns; [Done false] stands
    for the fuel running out, [Done true] for leaving the loop. *)
Fixpoint loop (R : renderer) (fuel : nat) : IO bool :=
  match fuel with
  | O => io_ret false
  | S fuel' =>
      again <- turn R ;;
      if again then loop R fuel' else io_ret true
  end.

(** [main()], run over the files [fs] with the lines [stdin] typed in. *)
Definition main (R : renderer) (fuel : nat)
  (fs : string -> option csv_file) (stdin : list string) : run bool :=
  loop R fuel stdin (__init__ "expenses.csv" fs []).

(** The state a run stands in. *)
Definition ended_in {A} (r : run A) : state :=
  match r with
  | Done _ _ s => s
  | EndOfInput s => s
  | Uncaught _ s => s
  end.

(** A renderer that writes nothing. *)
Definition silent : renderer :=
  mkrenderer (fun _ => EmptyString) (fun _ => EmptyString)
             (fun _ _ _ => EmptyString) (fun _ => EmptyString)
             (fun _ _ => []).

End Driver.

(** ** The class over the libraries

    The methods of the class once more, with every call of the standard
    library, of pandas and of the file system left to the fields of a
    [library].  Nothing is fixed about which texts are dates or numbers,
    how a float sum is rounded, or when a file can be written: what is
    proved of these methods holds whatever the libraries return.  A cell
    of a frame that was read is held as its text, or [None] where it is
    missing. *)

Module Generic.
Import Text.
Local Open Scope py_scope.

Record library := mklibrary {
  (** [datetime.strptime(text, "%Y-%m-%d")]; [None] stands for
      [ValueError]. *)
  strptime : string -> option date;
  (** [float(text)]; [None] stands for [ValueError]. *)
  to_float : string -> option pyfloat;
  (** [pd.to_datetime(text)]: [NaT] stands for [NaT] under
      [errors="coerce"] and for [ValueError] under [errors="raise"]. *)
  to_datetime : string -> Timestamp;
  (** [pd.to_datetime(column, errors="coerce")] *)
  to_datetime_column : list (option string) -> list Timestamp;
  (** [pd.to_numeric(column, errors="coerce")] *)
  to_numeric_column : list (option string) -> list pyfloat;
  (** [pd.read_csv(path)] *)
  read_csv : csv_file -> list raw_row;
  (** The text [to_csv] writes for a timestamp and for a float. *)
  format_date : date -> string;
  float_repr : pyfloat -> string;
  (** Whether writing the file fails with [OSError], and what is then on
      disk. *)
  write_fails : string -> csv_file -> (string -> option csv_file) ->
                option (string -> option csv_file);
  (** [Series.sum()] of a column, [x / n] for a count [n], and the sum of
      one group of [groupby("Category")["Amount"].sum()]. *)
  series_sum : list pyfloat -> pyfloat;
  divide : pyfloat -> nat -> pyfloat;
  group_sum : list pyfloat -> pyfloat
}.

Section Methods.
Variable L : library.

Definition write_row (r : row) : csv_row :=
  mkcsv (match Date r with Some d => format_date L d | None => "" end)
        (if PyFloat.isnan (Amount r) then "" else float_repr L (Amount r))
        (Category r)
        (match Description r with Some s => s | None => "" end).

Definition to_csv (df : DataFrame) : csv_file := map write_row df.

(** [self.data.to_csv(self.filename, index=False)] *)
Definition data_to_csv : M unit :=
  fun s =>
    match write_fails L (filename s) (to_csv (data s)) (files s) with
    | None =>
        Normal tt (mkstate (filename s) (data s)
                     (write_file (filename s) (to_csv (data s)) (files s))
                     (console s))
    | Some on_disk =>
        Raised OSError (mkstate (filename s) (data s) on_disk (console s))
    end.

(** The frame of four columns, row by row. *)
Fixpoint frame (dates : list Timestamp) (amounts : list pyfloat)
  (categories : list string) (descriptions : list (option string))
  : DataFrame :=
  match dates, amounts, categories, descriptions with
  | d :: dates', a :: amounts', c :: categories', s :: descriptions' =>
      mkrow d a c s :: frame dates' amounts' categories' descriptions'
  | _, _, _, _ => []
  end.

(** The three column assignments of [_clean_data]. *)
Definition converted (df : list raw_row) : DataFrame :=
  frame (to_datetime_column L (map raw_Date df))
        (to_numeric_column L (map raw_Amount df))
        (map (fun r => strip (Pandas.astype_str (raw_Category r))) df)
        (map raw_Description df).

Definition _clean_data (df : list raw_row) : DataFrame :=
  match df with
  | [] => []
  | _ => Pandas.dropna (converted df)
  end.

(** [ExpenseTracker(name)] over the files [fs]: it raises where the new
    file cannot be written. *)
Definition __init__ (name : string) (fs : string -> option csv_file)
  (out : list string) : outcome unit :=
  match fs name with
  | Some f => Normal tt (mkstate name (_clean_data (read_csv L f)) fs out)
  | None =>
      (data_to_csv ;;
       set_data (_clean_data [])) (mkstate name [] fs out)
  end.

Definition add_expense (date amount category description : string)
  : M bool :=
  try_except
    (_ <- or_raise (strptime L date) ;;
     a <- or_raise (to_float L amount) ;;
     if PyFloat.leb a PyFloat.zero then
       print ExpenseTracker.msg_amount ;;
       ret false
     else
       d <- or_raise (to_datetime L date) ;;
       a' <- or_raise (to_float L amount) ;;
       let new_row := mkrow (Some d) a' (strip category) (Some description) in
       df <- get_data ;;
       set_data (df ++ [new_row])%list ;;
       data_to_csv ;;
       print ExpenseTracker.msg_added ;;
       ret true)
    (print ExpenseTracker.msg_date ;;
     ret false).

(** The number of cells of a column that are not [NaN]. *)
Definition count (xs : list pyfloat) : nat :=
  List.length (filter (fun x => negb (PyFloat.isnan x)) xs).

(** [Series.mean()]: the sum of the column over the count of its cells
    that are not [NaN]. *)
Definition mean (xs : list pyfloat) : pyfloat :=
  match count xs with
  | O => NaN
  | n => divide L (series_sum L xs) n
  end.

(** [df.groupby("Category")["Amount"].sum()]: one entry per category, in
    ascending order of the category text. *)
Definition groupby_sum (df : DataFrame) : list (string * pyfloat) :=
  map (fun key =>
         (key, group_sum L
                 (map Amount
                    (filter (fun r => String.eqb (Category r) key) df))))
      (map fst (Pandas.groupby_sum df)).

Definition get_summary : M ExpenseTracker.summary :=
  df <- get_data ;;
  match df with
  | [] => ret (ExpenseTracker.NoData ExpenseTracker.msg_no_data)
  | _ =>
      let total := series_sum L (map Amount df) in
      let average := mean (map Amount df) in
      let category_summary := groupby_sum df in
      ret (ExpenseTracker.Stats total average category_summary)
  end.

Definition filter_expenses (start_date end_date : option string)
  (categories : option (list string)) (min_amount max_amount : option pyfloat)
  : M DataFrame :=
  df <- get_data ;;
  let df := map (fun r => mkrow (Date r) (Amount r)
                                (ExpenseTracker.normalize (Category r))
                                (Description r)) df in
  let df := match start_date with
            | Some s =>
                filter (fun r => Pandas.ts_ge (Date r) (to_datetime L s)) df
            | None => df
            end in
  let df := match end_date with
            | Some s =>
                filter (fun r => Pandas.ts_le (Date r) (to_datetime L s)) df
            | None => df
            end in
  let df := match categories with
            | Some cs =>
                let categories := map ExpenseTracker.normalize cs in
                filter (fun r => Pandas.isin (Category r) categories) df
            | None => df
            end in
  let df := match ExpenseTracker.supplied min_amount with
            | Some lo => filter (fun r => PyFloat.leb lo (Amount r)) df
            | None => df
            end in
  let df := match ExpenseTracker.supplied max_amount with
            | Some hi => filter (fun r => PyFloat.leb (Amount r) hi) df
            | None => df
            end in
  ret df.

End Methods.

(** The library made of the models above, with a disk that takes every
    write. *)
Definition modelled : library :=
  mklibrary Strptime.strptime PyFloat.of_str Pandas.to_datetime
            (map Pandas.to_datetime_cell) (map Pandas.to_numeric_cell)
            Pandas.read_csv Pandas.isoformat PyFloat.repr
            (fun _ _ _ => None)
            Pandas.sum PyFloat.div_count Pandas.sum.

End Generic.

(** ** What is asked of the libraries *)

Module Laws.
Import Generic.

(** The readers of dates return days that exist in the calendar. *)
Definition reads_dates (L : library) : Prop :=
  (forall s d, to_datetime L s = Some d -> valid_date d = true) /\
  (forall column d,
     In (Some d) (to_datetime_column L column) -> valid_date d = true).

(** What every row in memory satisfies: a date that exists and a trimmed
    category. *)
Definition held_row (r : row) : Prop :=
  (exists d, Date r = Some d /\ valid_date d = true) /\
  Text.strip (Category r) = Category r.

(** What every row satisfies right after loading. *)
Definition loaded_row (r : row) : Prop :=
  held_row r /\ PyFloat.isnan (Amount r) = false /\ Description r <> None.

(** A row that the file represents faithfully, for the dates, the floats
    and the texts that the libraries read back. *)
Definition storable (dates : date -> bool) (floats : pyfloat -> bool)
  (texts : string -> bool) (r : row) : Prop :=
  (exists d, Date r = Some d /\ dates d = true) /\
  floats (Amount r) = true /\
  Text.strip (Category r) = Category r /\ texts (Category r) = true /\
  (exists s, Description r = Some s /\ texts s = true).

(** The cells of a line, each read as the text it holds. *)
Definition as_text (c : csv_row) : raw_row :=
  mkraw (Some (csv_Date c)) (Some (csv_Amount c))
        (Some (csv_Category c)) (Some (csv_Description c)).

(** The libraries read back what they wrote: [read_csv] returns the cells
    of a file of storable rows as they stand, a column of written dates
    converts to those dates, a column of written floats converts to the
    same numbers, and no such float is [NaN]. *)
Definition reads_back (L : library) (dates : date -> bool)
  (floats : pyfloat -> bool) (texts : string -> bool) : Prop :=
  (forall df,
     Forall (storable dates floats texts) df ->
     read_csv L (to_csv L df) = map as_text (to_csv L df)) /\
  (forall ds,
     Forall (fun d => dates d = true) ds ->
     to_datetime_column L (map (fun d => Some (format_date L d)) ds)
     = map Some ds) /\
  (forall xs,
     Forall (fun x => floats x = true) xs ->
     Forall2 PyFloat.same
       (to_numeric_column L (map (fun x => Some (float_repr L x)) xs)) xs) /\
  (forall x, floats x = true -> PyFloat.isnan x = false).

(** The dates, the floats and the texts that the modelled library reads
    back. *)
Definition modelled_dates (d : date) : bool :=
  valid_date d && Pandas.in_bounds d.

Definition modelled_floats (x : pyfloat) : bool :=
  match x with
  | Fin q => Spec.exact q
  | Inf _ => true
  | NaN => false
  end.

End Laws.

(** * Theorems *)

Import ExpenseTracker Spec.

(** ** Running the class on examples *)

Example strptime_ok :
  Strptime.strptime "2024-01-05" = Some (mkdate 2024 1 5).
Proof. reflexivity. Qed.

Example strptime_short_fields :
  Strptime.strptime "2024-1-5" = Some (mkdate 2024 1 5).
Proof. reflexivity. Qed.

Example strptime_bad_month :
  Strptime.strptime "2024-13-40" = None.
Proof. reflexivity. Qed.

Example strptime_feb_30 :
  Strptime.strptime "2024-02-30" = None.
Proof. reflexivity. Qed.

Example strptime_trailing :
  Strptime.strptime "2024-01-311" = None.
Proof. reflexivity. Qed.

Example float_examples :
  PyFloat.of_str " 1_0.50e1 " = Some (Fin 105.0) /\
  PyFloat.of_str "-5" = Some (Fin (-5)) /\
  PyFloat.of_str "abc" = None /\
  PyFloat.of_str "1__0" = None /\
  PyFloat.of_str "-Infinity" = Some (Inf true) /\
  PyFloat.of_str "nan" = Some NaN.
Proof. repeat split; reflexivity. Qed.

Example repr_examples :
  PyFloat.repr (Fin 100) = "100.0" /\
  PyFloat.repr (Fin (3 # 2)) = "1.5" /\
  PyFloat.repr (Fin (-1 # 1000)) = "-0.001" /\
  PyFloat.repr (Inf true) = "-inf".
Proof. repeat split; reflexivity. Qed.

(** ** [add_expense] *)

Lemma positive_not_leb_zero (a : pyfloat) :
  positive a = true -> PyFloat.leb a PyFloat.zero = false.
Proof.
  destruct a as [q | [|] | ]; simpl; try discriminate; auto.
  intros H. unfold Qle_bool. simpl.
  apply Z.ltb_lt in H. apply Z.leb_gt. lia.
Qed.

(** The methods over the modelled library are the methods of the class
    above. *)
Lemma modelled_add_expense date amount category description :
  Generic.add_expense Generic.modelled date amount category description
  = add_expense date amount category description.
Proof. reflexivity. Qed.

Lemma modelled_filter_expenses sd ed cats mn mx :
  Generic.filter_expenses Generic.modelled sd ed cats mn mx
  = filter_expenses sd ed cats mn mx.
Proof. reflexivity. Qed.

Lemma modelled_data_to_csv :
  Generic.data_to_csv Generic.modelled = data_to_csv.
Proof. reflexivity. Qed.

Lemma frame_map {A} (f1 : A -> Timestamp) (f2 : A -> pyfloat)
  (f3 : A -> string) (f4 : A -> option string) (l : list A) :
  Generic.frame (map f1 l) (map f2 l) (map f3 l) (map f4 l)
  = map (fun x => mkrow (f1 x) (f2 x) (f3 x) (f4 x)) l.
Proof. induction l as [| x l IH]; simpl; [| rewrite IH]; reflexivity. Qed.

Lemma modelled_clean_data (raw : list raw_row) :
  Generic._clean_data Generic.modelled raw = _clean_data raw.
Proof.
  destruct raw as [| r raw]; [reflexivity |].
  unfold Generic._clean_data, _clean_data, Generic.converted.
  cbn [Generic.to_datetime_column Generic.to_numeric_column Generic.modelled].
  f_equal. rewrite !map_map.
  apply (frame_map (fun x => Pandas.to_datetime_cell (raw_Date x))
                   (fun x => Pandas.to_numeric_cell (raw_Amount x))).
Qed.

Lemma modelled_init name fs out :
  Generic.__init__ Generic.modelled name fs out
  = Normal tt (__init__ name fs out).
Proof.
  unfold Generic.__init__, __init__. destruct (fs name) as [f |].
  - now rewrite modelled_clean_data.
  - reflexivity.
Qed.

(** The three ways a call of [add_expense] ends: the record is stored
    and written, the record is stored and the write fails, or the call is
    refused. *)
Lemma add_expense_outcomes (L : Generic.library) st date amount category
  description :
  (exists d0 d a,
     Generic.strptime L date = Some d0 /\
     Generic.to_float L amount = Some a /\
     PyFloat.leb a PyFloat.zero = false /\
     Generic.to_datetime L date = Some d /\
     ((Generic.write_fails L (filename st)
         (Generic.to_csv L
            (data st ++ [mkrow (Some d) a (Text.strip category)
                               (Some description)])%list)
         (files st) = None /\
       Generic.add_expense L date amount category description st =
       Normal true
         (mkstate (filename st)
            (data st ++ [mkrow (Some d) a (Text.strip category)
                               (Some description)])%list
            (write_file (filename st)
               (Generic.to_csv L
                  (data st ++ [mkrow (Some d) a (Text.strip category)
                                     (Some description)])%list)
               (files st))
            (console st ++ [msg_added])%list)) \/
      (exists on_disk,
         Generic.write_fails L (filename st)
           (Generic.to_csv L
              (data st ++ [mkrow (Some d) a (Text.strip category)
                                 (Some description)])%list)
           (files st) = Some on_disk /\
         Generic.add_expense L date amount category description st =
         Raised OSError
           (mkstate (filename st)
              (data st ++ [mkrow (Some d) a (Text.strip category)
                                 (Some description)])%list
              on_disk (console st))))) \/
  ((forall d0 d a,
      Generic.strptime L date = Some d0 ->
      Generic.to_float L amount = Some a ->
      Generic.to_datetime L date = Some d ->
      PyFloat.leb a PyFloat.zero = true) /\
   exists line,
     (line = msg_amount \/ line = msg_date) /\
     Generic.add_expense L date amount category description st =
     Normal false
       (mkstate (filename st) (data st) (files st)
                (console st ++ [line])%list)).
Proof.
  unfold Generic.add_expense, try_except, bind, or_raise.
  destruct (Generic.strptime L date) as [d0 |]; simpl.
  2: { right. split; [intros ? ? ? H; discriminate H |].
       exists msg_date. split; [now right | reflexivity]. }
  destruct (Generic.to_float L amount) as [a |]; simpl.
  2: { right. split; [intros ? ? ? _ H; discriminate H |].
       exists msg_date. split; [now right | reflexivity]. }
  destruct (PyFloat.leb a PyFloat.zero) eqn:Hle; simpl.
  { right. split.
    - intros ? ? ? _ H _. injection H as <-. exact Hle.
    - exists msg_amount. split; [now left | reflexivity]. }
  destruct (Generic.to_datetime L date) as [d |]; simpl.
  2: { right. split; [intros ? ? ? _ _ H; discriminate H |].
       exists msg_date. split; [now right | reflexivity]. }
  left. exists d0, d, a. do 2 (split; [reflexivity |]).
  split; [exact Hle |]. split; [reflexivity |].
  unfold Generic.data_to_csv. cbn [filename data files console].
  destruct (Generic.write_fails L (filename st) _ (files st)) as [on_disk |].
  - right. exists on_disk. split; reflexivity.
  - left. split; reflexivity.
Qed.

Lemma stored_rows_written (L : Generic.library) (s : state) (df : DataFrame)
  (out : list string) :
  stored_rows (mkstate (filename s) df
                 (write_file (filename s) (Generic.to_csv L df) (files s)) out)
  = List.length df.
Proof.
  unfold stored_rows, write_file. simpl.
  rewrite String.eqb_refl. unfold Generic.to_csv. apply length_map.
Qed.



(** Under pandas 2.x a date before 1677-09-22 parses with [strptime] but
    raises [OutOfBoundsDatetime] in [pd.to_datetime]; the handler of
    [ValueError] prints the invalid-date line. *)
Example add_expense_out_of_bounds :
  Strptime.strptime "1500-01-01" = Some (mkdate 1500 1 1) /\
  exists st',
    add_expense "1500-01-01" "10" "Food" "x"
      (__init__ "expenses.csv" no_files []) = Normal false st' /\
    data st' = [] /\ console st' = [msg_date].
Proof.
  split; [reflexivity |]. eexists. repeat split.
Qed.


(** C2 (as amended).  When the amount text is not a number, or is a number
    less than or equal to zero, [add_expense] returns [False] whatever the
    other arguments are, and neither the collection nor the file changes;
    when the date text parses and the amount is a number less than or
    equal to zero, the line printed is the one of [InvalidAmount]. *)
Theorem add_expense_rejects_amount :
  forall st date amount category description,
    (PyFloat.of_str amount = None \/
     exists a, PyFloat.of_str amount = Some a /\
               PyFloat.leb a PyFloat.zero = true) ->
    exists st',
      add_expense date amount category description st = Normal false st' /\
      data st' = data st /\
      files st' = files st /\
      (forall d a, Strptime.strptime date = Some d ->
                   PyFloat.of_str amount = Some a ->
                   reported InvalidAmount st st').
Proof.
  intros st date amount category description H.
  unfold add_expense, try_except, bind, or_raise.
  destruct (Strptime.strptime date) as [d |] eqn:Hd; simpl.
  - destruct H as [Hnone | (a & Ha & Hle)].
    + rewrite Hnone. simpl. eexists. split; [reflexivity |].
      repeat split. intros ? ? _ Habs. discriminate.
    + rewrite Ha. simpl. rewrite Hle. simpl.
      eexists. split; [reflexivity |]. repeat split.
  - eexists. split; [reflexivity |]. repeat split.
    intros ? ? Habs. discriminate.
Qed.

Lemma add_expense_rejects_amount_witness :
  exists st',
    add_expense "2024-01-05" "-5" "Food" "x"
      (__init__ "expenses.csv" no_files []) = Normal false st' /\
    data st' = [] /\
    console st' = [InvalidAmount].
Proof.
  destruct (add_expense_rejects_amount (__init__ "expenses.csv" no_files [])
              "2024-01-05" "-5" "Food" "x"
              (or_intror (ex_intro _ (Fin (-5)) (conj eq_refl eq_refl))))
    as (st' & Hrun & Hdata & _ & Hmsg).
  exists st'. split; [exact Hrun |]. split; [exact Hdata |].
  exact (Hmsg (mkdate 2024 1 5) (Fin (-5)) eq_refl eq_refl).
Defined.

(** C2, counterexample.  With a date that parses and an amount text that
    is not a number, and with a date that does not parse and a negative
    amount, the line printed is the one of [InvalidDateFormat], not the
    one of [InvalidAmount]. *)
Lemma add_expense_amount_kind_counterexample :
  let st := __init__ "expenses.csv" no_files [] in
  (PyFloat.of_str "abc" = None /\
   exists st',
     add_expense "2024-01-05" "abc" "Food" "x" st = Normal false st' /\
     reported InvalidDateFormat st st' /\ ~ reported InvalidAmount st st') /\
  (PyFloat.of_str "-5" = Some (Fin (-5)) /\
   PyFloat.leb (Fin (-5)) PyFloat.zero = true /\
   exists st',
     add_expense "someday" "-5" "Food" "x" st = Normal false st' /\
     reported InvalidDateFormat st st' /\ ~ reported InvalidAmount st st').
Proof.
  simpl. split; [| split; [| split]]; try reflexivity.
  - split; [reflexivity |]. eexists. split; [reflexivity |].
    split; [reflexivity |]. unfold reported. simpl. discriminate.
  - eexists. split; [reflexivity |].
    split; [reflexivity |]. unfold reported. simpl. discriminate.
Qed.

(** C9.  When the date text does not parse in the format year-month-day,
    [add_expense] returns [False], prints the line of
    [InvalidDateFormat], and leaves the collection and the file as they
    were, whatever the amount text is. *)
Theorem add_expense_rejects_date :
  forall st date amount category description,
    Strptime.strptime date = None ->
    exists st',
      add_expense date amount category description st = Normal false st' /\
      reported InvalidDateFormat st st' /\
      data st' = data st /\
      files st' = files st.
Proof.
  intros st date amount category description Hd.
  unfold add_expense, try_except, bind, or_raise.
  rewrite Hd. simpl. eexists. split; [reflexivity |]. repeat split.
Qed.

Lemma add_expense_rejects_date_witness :
  exists st',
    add_expense "2024-13-40" "10" "Food" "x"
      (__init__ "expenses.csv" no_files []) = Normal false st' /\
    reported InvalidDateFormat (__init__ "expenses.csv" no_files []) st' /\
    data st' = [].
Proof.
  destruct (add_expense_rejects_date (__init__ "expenses.csv" no_files [])
              "2024-13-40" "10" "Food" "x" eq_refl)
    as (st' & Hrun & Hmsg & Hdata & _).
  exists st'. split; [exact Hrun |]. split; [exact Hmsg | exact Hdata].
Defined.

(** ** [get_summary] *)

Lemma filter_numeric (xs : list pyfloat) :
  Forall (fun x => PyFloat.isnan x = false) xs ->
  filter (fun x => negb (PyFloat.isnan x)) xs = xs.
Proof.
  induction 1 as [| x xs Hx _ IH]; simpl; [reflexivity |].
  rewrite Hx. simpl. now rewrite IH.
Qed.

Lemma count_numeric (df : DataFrame) :
  Forall (fun r => PyFloat.isnan (Amount r) = false) df ->
  Generic.count (map Amount df) = List.length df.
Proof.
  intros H. unfold Generic.count.
  rewrite filter_numeric by (apply Forall_map; exact H).
  apply length_map.
Qed.



(** C3, counterexample.  [add_expense] accepts the amount text [nan];
    with that record and a record of amount 5 the collection holds two
    records, the total is 5 and the average is 5, not the total divided
    by the number of records. *)
Lemma get_summary_average_counterexample :
  let s1 :=
    Behaviour.state_of
      (add_expense "2024-01-05" "nan" "Food" "x"
         (__init__ "expenses.csv" no_files [])) in
  let s2 :=
    Behaviour.state_of (add_expense "2024-01-06" "5" "Food" "y" s1) in
  add_expense "2024-01-05" "nan" "Food" "x"
    (__init__ "expenses.csv" no_files []) = Normal true s1 /\
  add_expense "2024-01-06" "5" "Food" "y" s1 = Normal true s2 /\
  map Amount (data s2) = [NaN; Fin 5] /\
  List.length (data s2) = 2%nat /\
  exists total average by_category,
    get_summary s2 = Normal (Stats total average by_category) s2 /\
    PyFloat.same total (Fin 5) /\
    PyFloat.same average (Fin 5) /\
    ~ PyFloat.same average (PyFloat.div_count total 2).
Proof.
  cbv zeta.
  split; [vm_compute; reflexivity |]. split; [vm_compute; reflexivity |].
  split; [vm_compute; reflexivity |]. split; [vm_compute; reflexivity |].
  exists (Pandas.sum [NaN; Fin 5]), (Pandas.mean [NaN; Fin 5]),
         [("Food", PyFloat.add (PyFloat.add PyFloat.zero PyFloat.zero)
                               (Fin 5))].
  split; [vm_compute; reflexivity |].
  split; [vm_compute; reflexivity |]. split; [vm_compute; reflexivity |].
  vm_compute. discriminate.
Qed.

Example scenario_two_expenses :
  forall s1 s2,
    add_expense "2024-01-05" "100" "Food" "lunch"
      (__init__ "expenses.csv" no_files []) = Normal true s1 ->
    add_expense "2024-01-06" "50" "Transport" "bus" s1 = Normal true s2 ->
    data s2 = data two_expenses /\
    exists average,
      get_summary s2
        = Normal (Stats (Fin 150) average
                        [("Food", Fin 100); ("Transport", Fin 50)]) s2 /\
      PyFloat.same average (Fin 75).
Proof.
  intros s1 s2 H1 H2. injection H1 as <-. injection H2 as <-.
  split; [reflexivity |]. eexists. split; reflexivity.
Qed.

(** ** [filter_expenses] *)

Lemma filter_expenses_stages st sd ed cats mn mx :
  filter_expenses sd ed cats mn mx st =
  Normal (by_max mx (by_min mn (by_categories cats
            (by_end ed (by_start sd (map working_copy (data st))))))) st.
Proof. reflexivity. Qed.

Lemma filter_none {A} (p : A -> bool) (l : list A) :
  (forall x, p x = false) -> filter p l = [].
Proof.
  intros H. induction l as [| x l IH]; simpl; [reflexivity |].
  now rewrite H.
Qed.

Lemma filter_swap {A} (p q : A -> bool) (l : list A) :
  filter p (filter q l) = filter q (filter p l).
Proof.
  induction l as [| x l IH]; simpl; [reflexivity |].
  destruct (p x) eqn:Hp, (q x) eqn:Hq; simpl;
    rewrite ?Hp, ?Hq, IH; reflexivity.
Qed.

Lemma filter_twice {A} (p q : A -> bool) (l : list A) :
  filter p (filter q l) = filter (fun x => q x && p x) l.
Proof.
  induction l as [| x l IH]; simpl; [reflexivity |].
  destruct (q x); simpl; [destruct (p x) |]; now rewrite IH.
Qed.

Lemma ts_ge_NaT (x : Timestamp) : Pandas.ts_ge x NaT = false.
Proof. now destruct x. Qed.

Lemma ts_le_NaT (x : Timestamp) : Pandas.ts_le x NaT = false.
Proof. reflexivity. Qed.

(** C4 (as amended).  Whatever text [pd.to_datetime] reads as a date: a
    start date or an end date that it reads as [NaT] under
    [errors="coerce"] compares with no record date, so [filter_expenses]
    returns the empty sequence, whatever the other arguments are. *)
Theorem filter_expenses_unparsable_bound :
  forall (L : Generic.library) st s other cats mn mx,
    Generic.to_datetime L s = NaT ->
    Generic.filter_expenses L (Some s) other cats mn mx st = Normal [] st /\
    Generic.filter_expenses L other (Some s) cats mn mx st = Normal [] st.
Proof.
  intros L st s other cats mn mx Hs.
  unfold Generic.filter_expenses, bind, get_data, ret. rewrite Hs.
  split; f_equal.
  - rewrite (filter_none _ _ (fun r => ts_ge_NaT (Date r))).
    destruct other, cats, (supplied mn), (supplied mx); reflexivity.
  - rewrite (filter_none _ _ (fun r => ts_le_NaT (Date r))).
    destruct cats, (supplied mn), (supplied mx); reflexivity.
Qed.

Lemma filter_expenses_unparsable_bound_witness :
  Generic.filter_expenses Generic.modelled
    (Some "someday") None None None None two_expenses
    = Normal [] two_expenses /\
  Generic.filter_expenses Generic.modelled
    None (Some "someday") None None None two_expenses
    = Normal [] two_expenses.
Proof.
  exact (filter_expenses_unparsable_bound Generic.modelled two_expenses
           "someday" None None None None eq_refl).
Defined.

(** C4, counterexample.  With a start date that does not parse the result
    is empty, while the same call without the start date returns both
    records; likewise for the end date. *)
Lemma filter_expenses_unparsable_bound_counterexample :
  Pandas.to_datetime "someday" = NaT /\
  filter_expenses (Some "someday") None None None None two_expenses
    <> filter_expenses None None None None None two_expenses /\
  filter_expenses None (Some "someday") None None None two_expenses
    <> filter_expenses None None None None None two_expenses.
Proof.
  split; [reflexivity |]. split; vm_compute; discriminate.
Qed.

Lemma supplied_zero (q : Q) : (q == 0)%Q -> supplied (Some (Fin q)) = None.
Proof.
  intros H. unfold supplied, PyFloat.truthy.
  apply Qeq_bool_iff in H. now rewrite H.
Qed.

Lemma supplied_nonzero (x : pyfloat) :
  (forall q, x = Fin q -> ~ (q == 0)%Q) -> supplied (Some x) = Some x.
Proof.
  intros H. unfold supplied, PyFloat.truthy.
  destruct x as [q | |]; try reflexivity.
  destruct (Qeq_bool q 0) eqn:E; [| reflexivity].
  apply Qeq_bool_iff in E. now destruct (H q eq_refl).
Qed.

(** C7.  A minimum or maximum amount of exactly zero selects the same
    records as no bound at all; any other supplied number [x] keeps, of
    the records the call without that bound returns, exactly those whose
    amount is at least [x] (minimum) or at most [x] (maximum). *)
Theorem filter_expenses_amount_bounds :
  forall st sd ed cats other,
    (forall q, (q == 0)%Q ->
       filter_expenses sd ed cats (Some (Fin q)) other st
         = filter_expenses sd ed cats None other st /\
       filter_expenses sd ed cats other (Some (Fin q)) st
         = filter_expenses sd ed cats other None st) /\
    (forall x, (forall q, x = Fin q -> ~ (q == 0)%Q) ->
       exists unbounded_min unbounded_max,
         filter_expenses sd ed cats None other st
           = Normal unbounded_min st /\
         filter_expenses sd ed cats (Some x) other st
           = Normal (filter (fun r => PyFloat.leb x (Amount r)) unbounded_min)
                    st /\
         filter_expenses sd ed cats other None st
           = Normal unbounded_max st /\
         filter_expenses sd ed cats other (Some x) st
           = Normal (filter (fun r => PyFloat.leb (Amount r) x) unbounded_max)
                    st).
Proof.
  intros st sd ed cats other. split.
  - intros q Hq. rewrite !filter_expenses_stages.
    unfold by_min at 1, by_max at 3. rewrite (supplied_zero q Hq).
    split; reflexivity.
  - intros x Hx. rewrite !filter_expenses_stages.
    do 2 eexists. split; [reflexivity |]. split; [| split; [reflexivity |]].
    + f_equal. unfold by_min at 1. rewrite (supplied_nonzero x Hx).
      unfold by_min at 1. simpl supplied. cbv iota.
      unfold by_max. destruct (supplied other); [| reflexivity].
      apply filter_swap.
    + f_equal. unfold by_max at 1. rewrite (supplied_nonzero x Hx).
      reflexivity.
Qed.

Lemma filter_expenses_amount_bounds_witness :
  (filter_expenses None None None (Some (Fin 0)) None two_expenses
     = filter_expenses None None None None None two_expenses /\
   filter_expenses None None None None (Some (Fin 0)) two_expenses
     = filter_expenses None None None None None two_expenses) /\
  (exists unbounded_min unbounded_max,
     filter_expenses None None None None None two_expenses
       = Normal unbounded_min two_expenses /\
     filter_expenses None None None (Some (Fin 50)) None two_expenses
       = Normal (filter (fun r => PyFloat.leb (Fin 50) (Amount r))
                        unbounded_min) two_expenses /\
     filter_expenses None None None None None two_expenses
       = Normal unbounded_max two_expenses /\
     filter_expenses None None None None (Some (Fin 50)) two_expenses
       = Normal (filter (fun r => PyFloat.leb (Amount r) (Fin 50))
                        unbounded_max) two_expenses).
Proof.
  destruct (filter_expenses_amount_bounds two_expenses None None None None)
    as [Hzero Hbound].
  split.
  - apply (Hzero 0%Q). reflexivity.
  - apply (Hbound (Fin 50)). intros q Hq. injection Hq as <-. discriminate.
Defined.

Example filter_expenses_inclusive :
  exists r,
    filter_expenses None None None (Some (Fin 100)) None two_expenses
      = Normal [r] two_expenses /\ Amount r = Fin 100.
Proof. eexists. split; reflexivity. Qed.

Lemma isin_named_in (names : list string) (r : row) :
  Pandas.isin (Category r) (map normalize names) = named_in names r.
Proof.
  unfold Pandas.isin, named_in.
  induction names as [| c names IH]; [reflexivity |].
  simpl. now rewrite IH.
Qed.

Lemma by_min_filter mn (p : row -> bool) (l : DataFrame) :
  by_min mn (filter p l) = filter p (by_min mn l).
Proof.
  unfold by_min. destruct (supplied mn); [apply filter_swap | reflexivity].
Qed.

Lemma by_max_filter mx (p : row -> bool) (l : DataFrame) :
  by_max mx (filter p l) = filter p (by_max mx l).
Proof.
  unfold by_max. destruct (supplied mx); [apply filter_swap | reflexivity].
Qed.

Lemma named_in_spec (names : list string) (r : row) :
  named_in names r = true <->
  exists c, In c names /\ Category r = Text.lower (Text.strip c).
Proof.
  unfold named_in. rewrite existsb_exists.
  split; intros (c & Hc & E); exists c; (split; [exact Hc |]).
  - now apply String.eqb_eq.
  - now apply String.eqb_eq.
Qed.

(** C8.  The category test compares the stored category and the supplied
    names once each is trimmed and put in lower case.  Two lists of names
    that agree name by name once trimmed and lowered select the same
    records; a list of names keeps, of the records the call without
    names returns, exactly those whose category is one of the names; with
    no other constraint the records returned are exactly the working
    copies of the stored records whose trimmed, lowered category is the
    trimmed, lowered form of a supplied name.  So ["Food"] and ["food"]
    return the same records, a stored record of category "Food " is
    among them, and a stored record of any other category is not. *)
Theorem filter_expenses_category_case :
  (forall st sd ed mn mx names names',
     map (fun c => Text.lower (Text.strip c)) names
     = map (fun c => Text.lower (Text.strip c)) names' ->
     filter_expenses sd ed (Some names) mn mx st
     = filter_expenses sd ed (Some names') mn mx st) /\
  (forall st sd ed mn mx names,
     exists unrestricted,
       filter_expenses sd ed None mn mx st = Normal unrestricted st /\
       filter_expenses sd ed (Some names) mn mx st
       = Normal (filter (named_in names) unrestricted) st) /\
  (forall st names,
     exists selected,
       filter_expenses None None (Some names) None None st
         = Normal selected st /\
       forall r,
         In r selected <->
         exists stored c,
           In stored (data st) /\ In c names /\
           Text.lower (Text.strip (Category stored))
           = Text.lower (Text.strip c) /\
           r = mkrow (Date stored) (Amount stored)
                     (Text.lower (Text.strip (Category stored)))
                     (Description stored)) /\
  (forall st,
     exists selected,
       filter_expenses None None (Some ["Food"]) None None st
         = Normal selected st /\
       filter_expenses None None (Some ["food"]) None None st
         = Normal selected st /\
       forall r, In r (data st) ->
         (Category r = "Food " -> In (working_copy r) selected) /\
         (Text.lower (Text.strip (Category r)) <> "food" ->
          ~ In (working_copy r) selected)).
Proof.
  assert (Hmembers : forall st names r,
    In r (filter (fun r => Pandas.isin (Category r) (map normalize names))
                 (map working_copy (data st))) <->
    exists stored c,
      In stored (data st) /\ In c names /\
      Text.lower (Text.strip (Category stored)) = Text.lower (Text.strip c) /\
      r = mkrow (Date stored) (Amount stored)
                (Text.lower (Text.strip (Category stored)))
                (Description stored)).
  { intros st names r. rewrite filter_In, in_map_iff, isin_named_in.
    rewrite named_in_spec. split.
    - intros ((stored & <- & Hin) & c & Hc & E).
      exists stored, c. repeat split; assumption.
    - intros (stored & c & Hin & Hc & E & ->). split.
      + exists stored. split; [reflexivity | exact Hin].
      + exists c. split; [exact Hc | exact E]. }
  split; [| split; [| split]].
  - intros st sd ed mn mx names names' H.
    rewrite !filter_expenses_stages. unfold by_categories.
    change (map normalize names)
      with (map (fun c => Text.lower (Text.strip c)) names).
    change (map normalize names')
      with (map (fun c => Text.lower (Text.strip c)) names').
    now rewrite H.
  - intros st sd ed mn mx names. rewrite !filter_expenses_stages.
    eexists. split; [reflexivity |]. f_equal.
    unfold by_categories.
    rewrite by_min_filter, by_max_filter.
    apply filter_ext. intros r. apply isin_named_in.
  - intros st names. eexists. split; [reflexivity |].
    intros r. apply Hmembers.
  - intros st. eexists. split; [reflexivity |]. split; [reflexivity |].
    intros r Hin. split.
    + intros Hcat. apply (Hmembers st ["food"]).
      exists r, "food". split; [exact Hin |]. split; [now left |].
      unfold working_copy, normalize. rewrite Hcat. split; reflexivity.
    + intros Hcat Hsel. apply (Hmembers st ["food"]) in Hsel.
      destruct Hsel as (stored & c & _ & [<- | []] & E & Hr).
      apply Hcat. unfold working_copy in Hr.
      injection Hr as _ _ Hr _. unfold normalize in Hr.
      rewrite Hr. exact E.
Qed.

Lemma filter_expenses_category_case_witness :
  filter_expenses None None (Some [" FOOD"; "Bus "]) None None
    (mkstate "expenses.csv"
       [mkrow (Some (mkdate 2024 1 5)) (Fin 100) "Food " (Some "lunch");
        mkrow (Some (mkdate 2024 1 6)) (Fin 50) "Transport" (Some "bus")]
       no_files [])
  = filter_expenses None None (Some ["food"; "bus"]) None None
      (mkstate "expenses.csv"
         [mkrow (Some (mkdate 2024 1 5)) (Fin 100) "Food " (Some "lunch");
          mkrow (Some (mkdate 2024 1 6)) (Fin 50) "Transport" (Some "bus")]
         no_files []) /\
  exists selected,
    filter_expenses None None (Some ["Food"]) None None
      (mkstate "expenses.csv"
         [mkrow (Some (mkdate 2024 1 5)) (Fin 100) "Food " (Some "lunch");
          mkrow (Some (mkdate 2024 1 6)) (Fin 50) "Transport" (Some "bus")]
         no_files [])
    = Normal selected
      (mkstate "expenses.csv"
         [mkrow (Some (mkdate 2024 1 5)) (Fin 100) "Food " (Some "lunch");
          mkrow (Some (mkdate 2024 1 6)) (Fin 50) "Transport" (Some "bus")]
         no_files []) /\
    In (mkrow (Some (mkdate 2024 1 5)) (Fin 100) "food" (Some "lunch"))
       selected /\
    ~ In (mkrow (Some (mkdate 2024 1 6)) (Fin 50) "transport" (Some "bus"))
         selected.
Proof.
  destruct filter_expenses_category_case as (Hsame & _ & _ & Hfood).
  split.
  - apply Hsame. reflexivity.
  - destruct (Hfood
      (mkstate "expenses.csv"
         [mkrow (Some (mkdate 2024 1 5)) (Fin 100) "Food " (Some "lunch");
          mkrow (Some (mkdate 2024 1 6)) (Fin 50) "Transport" (Some "bus")]
         no_files []))
      as (selected & Hrun & _ & Hrows).
    exists selected. split; [exact Hrun |]. split.
    + apply (Hrows (mkrow (Some (mkdate 2024 1 5)) (Fin 100) "Food "
                          (Some "lunch"))).
      * left. reflexivity.
      * reflexivity.
    + apply (Hrows (mkrow (Some (mkdate 2024 1 6)) (Fin 50) "Transport"
                          (Some "bus"))).
      * right. left. reflexivity.
      * discriminate.
Defined.

Lemma stage_keeps (stage : DataFrame -> DataFrame) :
  (forall df, stage df = df \/ exists p, forall df', stage df' = filter p df') ->
  forall keep (df : DataFrame),
    exists keep', stage (filter keep df) = filter keep' df.
Proof.
  intros H keep df. destruct (H (filter keep df)) as [E | (p & E)].
  - exists keep. exact E.
  - exists (fun x => keep x && p x). rewrite E. apply filter_twice.
Qed.

Lemma filter_all {A} (l : list A) : filter (fun _ => true) l = l.
Proof. induction l as [| x l IH]; simpl; [| rewrite IH]; reflexivity. Qed.

(** C10.  [filter_expenses] returns without changing the state, so the
    collection of the tracker is as it was; what it returns is a selection,
    in order, of the working copy, in which each stored record carries its
    category trimmed and in lower case. *)
Theorem filter_expenses_working_copy :
  forall st sd ed cats mn mx,
    exists keep,
      filter_expenses sd ed cats mn mx st
        = Normal (filter keep (map working_copy (data st))) st /\
      forall r, In r (filter keep (map working_copy (data st))) ->
        exists stored, In stored (data st) /\
          r = mkrow (Date stored) (Amount stored)
                    (Text.lower (Text.strip (Category stored)))
                    (Description stored).
Proof.
  intros st sd ed cats mn mx. rewrite filter_expenses_stages.
  pose (wc := map working_copy (data st)).
  assert (H1 : exists k, by_start sd wc = filter k wc).
  { destruct sd; simpl; [eexists; reflexivity |].
    exists (fun _ => true). symmetry. apply filter_all. }
  destruct H1 as (k1 & E1). fold wc. rewrite E1.
  destruct (stage_keeps (by_end ed)) with (keep := k1) (df := wc)
    as (k2 & E2).
  { intros df. destruct ed; simpl; [right; eexists; reflexivity | now left]. }
  rewrite E2.
  destruct (stage_keeps (by_categories cats)) with (keep := k2) (df := wc)
    as (k3 & E3).
  { intros df. destruct cats; simpl;
      [right; eexists; reflexivity | now left]. }
  rewrite E3.
  destruct (stage_keeps (by_min mn)) with (keep := k3) (df := wc)
    as (k4 & E4).
  { intros df. unfold by_min. destruct (supplied mn);
      [right; eexists; reflexivity | now left]. }
  rewrite E4.
  destruct (stage_keeps (by_max mx)) with (keep := k4) (df := wc)
    as (k5 & E5).
  { intros df. unfold by_max. destruct (supplied mx);
      [right; eexists; reflexivity | now left]. }
  rewrite E5.
  exists k5. split; [reflexivity |].
  intros r Hr. apply filter_In in Hr. destruct Hr as [Hr _].
  unfold wc in Hr. apply in_map_iff in Hr. destruct Hr as (stored & <- & Hin).
  exists stored. split; [exact Hin | reflexivity].
Qed.

Example filter_expenses_lowers_category :
  filter_expenses None None (Some ["FOOD "]) None None two_expenses
    = Normal [mkrow (Some (mkdate 2024 1 5)) (Fin 100) "food" (Some "lunch")]
             two_expenses.
Proof. reflexivity. Qed.

(** ** Trimming *)

Module TextFacts.
Import Text.

Lemma rstrip_cons_nonspace (c : ascii) (r : string) :
  isspace c = false -> exists r', rstrip (String c r) = String c r'.
Proof.
  intros H. simpl. rewrite H. destruct (rstrip r); eexists; reflexivity.
Qed.

Lemma rstrip_idempotent (s : string) : rstrip (rstrip s) = rstrip s.
Proof.
  induction s as [| c r IH]; [reflexivity |]. simpl.
  destruct (rstrip r) as [| a b] eqn:E.
  - destruct (isspace c) eqn:Hc; [reflexivity |]. simpl. now rewrite Hc.
  - change (rstrip (String c (String a b)) = String c (String a b)).
    remember (String a b) as r' eqn:Hr'. simpl. rewrite IH.
    rewrite Hr'. reflexivity.
Qed.

Lemma lstrip_head (s : string) :
  lstrip s = EmptyString \/
  exists c r, lstrip s = String c r /\ isspace c = false.
Proof.
  induction s as [| c r IH]; [now left |]. simpl.
  destruct (isspace c) eqn:Hc; [exact IH |].
  right. exists c, r. split; [reflexivity | exact Hc].
Qed.

Lemma lstrip_nonspace (c : ascii) (r : string) :
  isspace c = false -> lstrip (String c r) = String c r.
Proof. intros H. simpl. now rewrite H. Qed.

Lemma strip_idempotent (s : string) : strip (strip s) = strip s.
Proof.
  unfold strip. destruct (lstrip_head s) as [E | (c & r & E & Hc)].
  - rewrite E. reflexivity.
  - rewrite E. destruct (rstrip_cons_nonspace c r Hc) as (r' & E').
    rewrite E'. rewrite (lstrip_nonspace c r' Hc). rewrite <- E'.
    apply rstrip_idempotent.
Qed.

End TextFacts.

(** ** The invariant of the collection *)

Lemma strptime_valid (s : string) (d : date) :
  Strptime.strptime s = Some d -> valid_date d = true.
Proof.
  unfold Strptime.strptime.
  destruct (Strptime.regex_match s) as [[[[y m] dd] [| c r]] |];
    try discriminate.
  destruct (valid_date (mkdate y m dd)) eqn:E; [| discriminate].
  intros H. injection H as <-. exact E.
Qed.

Lemma frame_In dates amounts categories descriptions (r : row) :
  In r (Generic.frame dates amounts categories descriptions) ->
  In (Date r) dates /\ In (Amount r) amounts /\
  In (Category r) categories /\ In (Description r) descriptions.
Proof.
  revert amounts categories descriptions.
  induction dates as [| d dates IH];
    intros [| a amounts] [| c categories] [| s descriptions]; simpl;
    try tauto.
  intros [<- | H]; simpl; [tauto |].
  destruct (IH _ _ _ H) as (H1 & H2 & H3 & H4). tauto.
Qed.

Lemma frame_no_categories dates amounts descriptions :
  Generic.frame dates amounts [] descriptions = [].
Proof. destruct dates, amounts; reflexivity. Qed.

Lemma clean_data_dropna (L : Generic.library) (raw : list raw_row) :
  Generic._clean_data L raw = Pandas.dropna (Generic.converted L raw).
Proof.
  destruct raw as [| r raw]; [| reflexivity].
  unfold Generic._clean_data, Generic.converted. simpl.
  now rewrite frame_no_categories.
Qed.

Lemma notna_spec (r : row) :
  Pandas.notna r = true <->
  Date r <> NaT /\ PyFloat.isnan (Amount r) = false /\ Description r <> None.
Proof.
  unfold Pandas.notna, NaT.
  destruct (Date r), (Amount r), (Description r); simpl;
    split; try discriminate; try (intros (H1 & H2 & H3); congruence);
    intros _; repeat split; discriminate.
Qed.

Lemma modelled_reads_dates : Laws.reads_dates Generic.modelled.
Proof.
  assert (H : forall s d, Pandas.to_datetime s = Some d -> valid_date d = true).
  { intros s d. unfold Pandas.to_datetime.
    destruct (Strptime.strptime s) as [d0 |] eqn:E; [| discriminate].
    destruct (Pandas.in_bounds d0); [| discriminate].
    intros H. injection H as <-. now apply strptime_valid with s. }
  split; [exact H |].
  intros column d Hin. cbn in Hin. apply in_map_iff in Hin.
  destruct Hin as ([s |] & E & _); [| discriminate E].
  now apply H with s.
Qed.




(** ** Decimal text *)

Module DigitFacts.
Import Text Digits.

Lemma isdigit_cases (c : ascii) :
  isdigit c = true ->
  In c ["0"; "1"; "2"; "3"; "4"; "5"; "6"; "7"; "8"; "9"]%char.
Proof.
  destruct c as [[] [] [] [] [] [] [] []]; intros H;
    try discriminate H; simpl; auto 11.
Qed.

Lemma digit_char_cases (z : Z) :
  0 <= z < 10 ->
  isdigit (digit_char z) = true /\ digit_val (digit_char z) = z.
Proof.
  intros H.
  assert (E : z = 0 \/ z = 1 \/ z = 2 \/ z = 3 \/ z = 4 \/ z = 5 \/
              z = 6 \/ z = 7 \/ z = 8 \/ z = 9) by lia.
  repeat (destruct E as [-> | E]; [split; reflexivity |]).
  subst. split; reflexivity.
Qed.

Lemma isdigit_digit_char (x : Z) : isdigit (digit_char (x mod 10)) = true.
Proof. apply digit_char_cases, Z.mod_pos_bound. lia. Qed.

Lemma digit_val_digit_char (x : Z) :
  digit_val (digit_char (x mod 10)) = x mod 10.
Proof. apply digit_char_cases, Z.mod_pos_bound. lia. Qed.

Lemma append_assoc (a b c : string) : ((a ++ b) ++ c = a ++ (b ++ c))%string.
Proof. induction a as [| x a IH]; simpl; [| rewrite IH]; reflexivity. Qed.

Lemma append_nil_r (a : string) : (a ++ "" = a)%string.
Proof. induction a as [| x a IH]; simpl; [| rewrite IH]; reflexivity. Qed.

Lemma length_append (a b : string) :
  String.length (a ++ b) = (String.length a + String.length b)%nat.
Proof. induction a as [| x a IH]; simpl; [| rewrite IH]; reflexivity. Qed.

Lemma fixed_append (k : nat) (x : Z) (acc : string) :
  fixed k x acc = (fixed k x "" ++ acc)%string.
Proof.
  revert x acc. induction k as [| k IH]; intros x acc; [reflexivity |].
  simpl. rewrite IH. rewrite (IH _ (String _ "")).
  now rewrite append_assoc.
Qed.

Lemma fixed_succ (k : nat) (x : Z) :
  fixed (S k) x "" =
  (fixed k (x / 10) "" ++ String (digit_char (x mod 10)) "")%string.
Proof. simpl. apply fixed_append. Qed.

Lemma length_fixed (k : nat) (x : Z) : String.length (fixed k x "") = k.
Proof.
  revert x. induction k as [| k IH]; intros x; [reflexivity |].
  rewrite fixed_succ, length_append, IH. simpl. lia.
Qed.

Lemma all_digits_append (a b : string) :
  all_digits (a ++ b) = all_digits a && all_digits b.
Proof.
  induction a as [| x a IH]; simpl; [reflexivity |].
  now rewrite IH, andb_assoc.
Qed.

Lemma all_digits_fixed (k : nat) (x : Z) : all_digits (fixed k x "") = true.
Proof.
  revert x. induction k as [| k IH]; intros x; [reflexivity |].
  rewrite fixed_succ, all_digits_append, IH. simpl.
  now rewrite isdigit_digit_char.
Qed.

Lemma value_append (a b : string) (acc : Z) :
  value (a ++ b) acc = value b (value a acc).
Proof.
  revert acc. induction a as [| x a IH]; intros acc; simpl;
    [reflexivity | apply IH].
Qed.

Lemma value_single (c : ascii) (acc : Z) :
  value (String c "") acc = 10 * acc + digit_val c.
Proof. reflexivity. Qed.

Lemma value_fixed (k : nat) (x acc : Z) :
  value (fixed k x "") acc = acc * 10 ^ Z.of_nat k + x mod 10 ^ Z.of_nat k.
Proof.
  revert x acc. induction k as [| k IH]; intros x acc.
  - simpl. rewrite Z.mod_1_r. lia.
  - rewrite fixed_succ, value_append, IH, value_single.
    rewrite digit_val_digit_char.
    assert (Hpos : 0 < 10 ^ Z.of_nat k) by (apply Z.pow_pos_nonneg; lia).
    rewrite Nat2Z.inj_succ, Z.pow_succ_r by lia.
    rewrite (Z.rem_mul_r x 10 (10 ^ Z.of_nat k)) by lia.
    ring.
Qed.

Lemma drop_zeros_value (s : string) : value (drop_zeros s) 0 = value s 0.
Proof.
  induction s as [| c r IH]; [reflexivity |].
  destruct r as [| a b]; [reflexivity |].
  change (drop_zeros (String c (String a b)))
    with (if Ascii.eqb c "0" then drop_zeros (String a b)
          else String c (String a b)).
  destruct (Ascii.eqb_spec c "0") as [-> | _]; [| reflexivity].
  rewrite IH. reflexivity.
Qed.

Lemma drop_zeros_digits (s : string) :
  all_digits s = true -> all_digits (drop_zeros s) = true.
Proof.
  induction s as [| c r IH]; [reflexivity |].
  destruct r as [| a b]; [auto |].
  change (drop_zeros (String c (String a b)))
    with (if Ascii.eqb c "0" then drop_zeros (String a b)
          else String c (String a b)).
  intros H. destruct (Ascii.eqb c "0"); [| exact H].
  apply IH. simpl in H. apply andb_true_iff in H. apply H.
Qed.

Lemma drop_zeros_nonempty (s : string) :
  s <> EmptyString -> drop_zeros s <> EmptyString.
Proof.
  induction s as [| c r IH]; [congruence |].
  destruct r as [| a b]; [intros _; discriminate |].
  change (drop_zeros (String c (String a b)))
    with (if Ascii.eqb c "0" then drop_zeros (String a b)
          else String c (String a b)).
  intros _. destruct (Ascii.eqb c "0"); [| discriminate].
  apply IH. discriminate.
Qed.

Lemma natural_digits (x : Z) : all_digits (natural x) = true.
Proof. apply drop_zeros_digits, all_digits_fixed. Qed.

Lemma natural_nonempty (x : Z) : natural x <> EmptyString.
Proof.
  apply drop_zeros_nonempty. rewrite fixed_succ.
  destruct (fixed _ _ _); discriminate.
Qed.

Lemma natural_value (x : Z) : 0 <= x -> value (natural x) 0 = x.
Proof.
  intros Hx. unfold natural. rewrite drop_zeros_value, value_fixed.
  rewrite Z.mul_0_l, Z.add_0_l. apply Z.mod_small. split; [exact Hx |].
  rewrite Nat2Z.inj_succ, Z2Nat.id by apply Z.log2_nonneg.
  destruct (Z.eq_dec x 0) as [-> | Hne]; [reflexivity |].
  apply Z.lt_le_trans with (2 ^ Z.succ (Z.log2 x)).
  - apply Z.log2_spec. lia.
  - apply Z.pow_le_mono_l. pose proof (Z.log2_nonneg x). lia.
Qed.

End DigitFacts.

(** ** Reading back a written date *)

Module DateFacts.
Import Text Digits Strptime DigitFacts.

Lemma lit_cons {A} (c : ascii) (k : string -> option A) (r : string) :
  lit c k (String c r) = k r.
Proof. unfold lit. now rewrite Ascii.eqb_refl. Qed.

Lemma re_Y_fixed {A} (k : Z -> string -> option A) (y : Z) (rest : string) :
  0 <= y <= 9999 -> re_Y k (fixed 4 y rest) = k y rest.
Proof.
  intros Hy. cbn [fixed]. unfold re_Y.
  rewrite !isdigit_digit_char. cbn [andb].
  rewrite !digit_val_digit_char. f_equal.
  Z.to_euclidean_division_equations. lia.
Qed.

Lemma re_m_fixed {A} (k : Z -> string -> option A) (m : Z) (rest : string)
  (v : A) :
  1 <= m <= 12 -> k m rest = Some v -> re_m k (fixed 2 m rest) = Some v.
Proof.
  intros Hm Hk.
  assert (E : m = 1 \/ m = 2 \/ m = 3 \/ m = 4 \/ m = 5 \/ m = 6 \/ m = 7 \/
              m = 8 \/ m = 9 \/ m = 10 \/ m = 11 \/ m = 12) by lia.
  repeat (destruct E as [-> | E];
          [cbv [re_m]; cbn; rewrite Hk; reflexivity |]).
  subst. cbv [re_m]. cbn. rewrite Hk. reflexivity.
Qed.

Lemma re_d_fixed {A} (k : Z -> string -> option A) (d : Z) (rest : string)
  (v : A) :
  1 <= d <= 31 -> k d rest = Some v -> re_d k (fixed 2 d rest) = Some v.
Proof.
  intros Hd Hk.
  assert (E : d = 1 \/ d = 2 \/ d = 3 \/ d = 4 \/ d = 5 \/ d = 6 \/ d = 7 \/
              d = 8 \/ d = 9 \/ d = 10 \/ d = 11 \/ d = 12 \/ d = 13 \/
              d = 14 \/ d = 15 \/ d = 16 \/ d = 17 \/ d = 18 \/ d = 19 \/
              d = 20 \/ d = 21 \/ d = 22 \/ d = 23 \/ d = 24 \/ d = 25 \/
              d = 26 \/ d = 27 \/ d = 28 \/ d = 29 \/ d = 30 \/ d = 31)
    by lia.
  repeat (destruct E as [-> | E];
          [cbv [re_d]; cbn; rewrite Hk; reflexivity |]).
  subst. cbv [re_d]. cbn. rewrite Hk. reflexivity.
Qed.

Lemma days_in_month_le (y m : Z) : days_in_month y m <= 31.
Proof.
  unfold days_in_month.
  destruct (m =? 2); [destruct (is_leap y); lia |].
  destruct ((m =? 4) || (m =? 6) || (m =? 9) || (m =? 11)); lia.
Qed.

Lemma valid_date_bounds (d : date) :
  valid_date d = true ->
  1 <= year d <= 9999 /\ 1 <= month d <= 12 /\ 1 <= day d <= 31.
Proof.
  unfold valid_date. intros H.
  repeat (apply andb_true_iff in H; destruct H as [H ?]).
  pose proof (days_in_month_le (year d) (month d)). lia.
Qed.

Lemma strptime_isoformat (d : date) :
  valid_date d = true -> strptime (Pandas.isoformat d) = Some d.
Proof.
  intros Hv. destruct (valid_date_bounds d Hv) as (Hy & Hm & Hd).
  unfold strptime, regex_match, Pandas.isoformat.
  rewrite re_Y_fixed by lia.
  cbn [append]. rewrite lit_cons.
  rewrite (re_m_fixed _ (month d) _ (year d, month d, day d, EmptyString) Hm).
  - destruct d as [y m dd]. simpl in *. now rewrite Hv.
  - cbn [append]. rewrite lit_cons.
    apply re_d_fixed; [exact Hd | reflexivity].
Qed.

End DateFacts.

(** ** Reading back a written number *)

Module FloatFacts.
Import Text Digits PyFloat DigitFacts.

Lemma digit_facts (c : ascii) :
  isdigit c = true ->
  isspace c = false /\ Ascii.eqb c "_" = false /\ Ascii.eqb c "-" = false /\
  Ascii.eqb c "+" = false /\
  forall r, String.eqb (lower (String c r)) "inf" = false /\
            String.eqb (lower (String c r)) "infinity" = false /\
            String.eqb (lower (String c r)) "nan" = false.
Proof.
  intros H. apply isdigit_cases in H. simpl in H.
  repeat (destruct H as [<- | H]; [repeat split |]).
  destruct H.
Qed.

Lemma no_space_append (a b : string) :
  no_space (a ++ b) = no_space a && no_space b.
Proof.
  induction a as [| x a IH]; simpl; [reflexivity |].
  now rewrite IH, andb_assoc.
Qed.

Lemma no_space_digits (s : string) : all_digits s = true -> no_space s = true.
Proof.
  induction s as [| c r IH]; [reflexivity |]. simpl. intros H.
  apply andb_true_iff in H. destruct H as [Hc Hr].
  destruct (digit_facts c Hc) as (-> & _). simpl. now apply IH.
Qed.

Lemma rstrip_no_space (s : string) : no_space s = true -> rstrip s = s.
Proof.
  induction s as [| c r IH]; [reflexivity |]. simpl. intros H.
  apply andb_true_iff in H. destruct H as [Hc Hr].
  rewrite (IH Hr). apply negb_true_iff in Hc. rewrite Hc.
  now destruct r.
Qed.

Lemma strip_no_space (s : string) : no_space s = true -> strip s = s.
Proof.
  intros H. unfold strip.
  assert (E : lstrip s = s).
  { destruct s as [| c r]; [reflexivity |]. simpl in *.
    apply andb_true_iff in H. destruct H as [Hc _].
    apply negb_true_iff in Hc. now rewrite Hc. }
  rewrite E. now apply rstrip_no_space.
Qed.

Lemma digitpart_cons (c : ascii) (r : string) :
  isdigit c = true ->
  match r with String u _ => Ascii.eqb u "_" = false | EmptyString => True end ->
  digitpart (String c r) =
  let (ds, rest) := digitpart r in (String c ds, rest).
Proof.
  intros Hc Hr. cbn [digitpart]. rewrite Hc.
  destruct r as [| u [| c' t]]; try reflexivity.
  rewrite Hr. reflexivity.
Qed.

Lemma digitpart_digits (ds rest : string) :
  all_digits ds = true -> ends_number rest = true ->
  digitpart (ds ++ rest) = (ds, rest).
Proof.
  intros Hds Hrest. induction ds as [| c ds IH].
  - simpl. destruct rest as [| x r]; [reflexivity |].
    simpl in Hrest. apply andb_true_iff in Hrest. destruct Hrest as [Hx _].
    apply negb_true_iff in Hx. cbn [digitpart]. now rewrite Hx.
  - simpl in Hds. apply andb_true_iff in Hds. destruct Hds as [Hc Hds].
    cbn [append]. rewrite digitpart_cons; [now rewrite (IH Hds) | exact Hc |].
    destruct ds as [| u ds'].
    + simpl. destruct rest as [| x r]; [exact I |].
      simpl in Hrest. apply andb_true_iff in Hrest.
      destruct Hrest as [_ Hx]. now apply negb_true_iff in Hx.
    + simpl in Hds. apply andb_true_iff in Hds. destruct Hds as [Hu _].
      apply (digit_facts u Hu).
Qed.

Lemma frac_digits_ge (n d : Z) (k fuel : nat) :
  (k <= frac_digits n d k fuel)%nat.
Proof.
  revert k. induction fuel as [| fuel IH]; intros k; simpl; [lia |].
  destruct (_ =? 0); [lia |]. specialize (IH (S k)). lia.
Qed.

(** The text [repr] prints for [m / 10 ^ k] is read as [m] over [10 ^ k]. *)
Lemma decimal_fixed (m : Z) (k : nat) :
  0 <= m ->
  decimal (natural (m / 10 ^ Z.of_nat k) ++ "." ++ fixed k m "")
  = Some (m, - Z.of_nat k).
Proof.
  intros Hm. unfold decimal.
  assert (Hpow : 0 < 10 ^ Z.of_nat k) by (apply Z.pow_pos_nonneg; lia).
  rewrite digitpart_digits; [| apply natural_digits | reflexivity].
  cbn [append]. rewrite Ascii.eqb_refl.
  rewrite <- (append_nil_r (fixed k m "")) at 1.
  rewrite digitpart_digits; [| apply all_digits_fixed | reflexivity].
  destruct (natural (m / 10 ^ Z.of_nat k)) as [| c r] eqn:E;
    [now destruct (natural_nonempty (m / 10 ^ Z.of_nat k)) |].
  rewrite <- E. cbn [exponent].
  rewrite value_append, value_fixed, natural_value, length_fixed
    by (apply Z.div_pos; lia).
  f_equal. f_equal.
  rewrite (Z.div_mod m (10 ^ Z.of_nat k)) at 3 by lia. ring.
Qed.

Lemma repr_body_head (m : Z) (k : nat) :
  exists c r,
    (natural (m / 10 ^ Z.of_nat k) ++ "." ++ fixed k m "")%string
      = String c r /\ isdigit c = true.
Proof.
  pose proof (natural_digits (m / 10 ^ Z.of_nat k)) as Hd.
  destruct (natural (m / 10 ^ Z.of_nat k)) as [| c r] eqn:E;
    [now destruct (natural_nonempty (m / 10 ^ Z.of_nat k)) |].
  exists c. eexists. split; [reflexivity |].
  simpl in Hd. now apply andb_true_iff in Hd.
Qed.

Lemma repr_body_no_space (m : Z) (k : nat) :
  no_space (natural (m / 10 ^ Z.of_nat k) ++ "." ++ fixed k m "") = true.
Proof.
  rewrite !no_space_append.
  rewrite (no_space_digits _ (natural_digits _)).
  rewrite (no_space_digits _ (all_digits_fixed _ _)). reflexivity.
Qed.

(** An unsigned body that starts with a digit is read as a decimal. *)
Lemma of_str_body (neg : bool) (body : string) (m e : Z) :
  (exists c r, body = String c r /\ isdigit c = true) ->
  no_space body = true ->
  decimal body = Some (m, e) ->
  of_str ((if neg then "-" else "") ++ body)
  = Some (Fin (scale10 (if neg then - m else m) e)).
Proof.
  intros (c & r & -> & Hc) Hns Hdec. unfold of_str.
  destruct (digit_facts c Hc) as (_ & _ & Hminus & Hplus & Hword).
  destruct (Hword r) as (Hinf & Hinfinity & Hnan).
  rewrite strip_no_space by (destruct neg; simpl; simpl in Hns; exact Hns).
  assert (Hsign : sign ((if neg then "-" else "") ++ String c r)
                  = (neg, String c r)).
  { destruct neg; [reflexivity |]. simpl. now rewrite Hminus, Hplus. }
  rewrite Hsign, Hinf, Hinfinity, Hnan, Hdec. reflexivity.
Qed.

Lemma of_str_repr_fin (q : Q) :
  exact q = true ->
  exists q', of_str (repr (Fin q)) = Some (Fin q') /\ (q' == q)%Q.
Proof.
  unfold exact. intros Hex. apply Z.eqb_eq in Hex.
  unfold repr.
  set (n := Z.abs (Qnum q)) in *.
  set (d := Z.pos (Qden q)) in *.
  set (k := frac_digits n d 1 (Z.to_nat (Z.log2 d))) in *.
  set (m := n * 10 ^ Z.of_nat k / d).
  assert (Hk : (1 <= k)%nat) by apply frac_digits_ge.
  assert (Hpow : 0 < 10 ^ Z.of_nat k) by (apply Z.pow_pos_nonneg; lia).
  assert (Hm : 0 <= m).
  { apply Z.div_pos; [| reflexivity]. apply Z.mul_nonneg_nonneg; lia. }
  assert (Hmd : m * d = n * 10 ^ Z.of_nat k).
  { unfold m. rewrite Z.mul_comm. symmetry.
    apply Z_div_exact_full_2; [discriminate | exact Hex]. }
  eexists. split.
  - apply (of_str_body (Qnum q <? 0)
             (natural (m / 10 ^ Z.of_nat k) ++ "." ++ fixed k m "") m
             (- Z.of_nat k)).
    + apply repr_body_head.
    + apply repr_body_no_space.
    + apply decimal_fixed, Hm.
  - unfold scale10.
    destruct (0 <=? - Z.of_nat k) eqn:Hneg; [apply Z.leb_le in Hneg; lia |].
    unfold Qeq. cbn [Qnum Qden].
    rewrite Z.opp_involutive, Z2Pos.id by exact Hpow.
    fold d. destruct (Qnum q <? 0) eqn:Hs.
    + apply Z.ltb_lt in Hs.
      rewrite Z.mul_opp_l, Hmd. unfold n. lia.
    + apply Z.ltb_ge in Hs. rewrite Hmd. unfold n. lia.
Qed.

End FloatFacts.

(** ** Persisting and reloading *)

Lemma isin_na_cases (s : string) :
  Pandas.isin s Pandas.na_values = true -> In s Pandas.na_values.
Proof.
  unfold Pandas.isin. intros H. apply existsb_exists in H.
  destruct H as (x & Hx & E). apply String.eqb_eq in E. now subst.
Qed.

Lemma date_text_plain (s : string) (d : date) :
  Strptime.strptime s = Some d -> Pandas.read_cell s = Some s.
Proof.
  intros H. unfold Pandas.read_cell.
  destruct (Pandas.isin s Pandas.na_values) eqn:E; [| reflexivity].
  apply isin_na_cases in E. simpl in E.
  repeat (destruct E as [<- | E]; [discriminate H |]). destruct E.
Qed.

Lemma number_text_plain (s : string) (x : pyfloat) :
  PyFloat.of_str s = Some x -> PyFloat.isnan x = false ->
  Pandas.read_cell s = Some s.
Proof.
  intros H Hx. unfold Pandas.read_cell.
  destruct (Pandas.isin s Pandas.na_values) eqn:E; [| reflexivity].
  apply isin_na_cases in E. simpl in E.
  repeat (destruct E as [<- | E];
          [first [discriminate H
                 | injection H as <-; discriminate Hx] |]).
  destruct E.
Qed.

Lemma read_cell_plain (s : string) :
  plain s = true -> Pandas.read_cell s = Some s.
Proof.
  unfold plain, Pandas.read_cell. intros H.
  apply andb_true_iff in H. destruct H as [H _].
  apply andb_true_iff in H. destruct H as [H _].
  apply negb_true_iff in H. now rewrite H.
Qed.

Lemma of_str_repr (x : pyfloat) :
  match x with Fin q => exact q = true | Inf _ => True | NaN => False end ->
  exists x', PyFloat.of_str (PyFloat.repr x) = Some x' /\
             PyFloat.same x' x /\ PyFloat.isnan x' = false.
Proof.
  destruct x as [q | [|] |]; intros H.
  - destruct (FloatFacts.of_str_repr_fin q H) as (q' & E & Hq).
    exists (Fin q'). split; [exact E |]. split; [exact Hq | reflexivity].
  - exists (Inf true). repeat split.
  - exists (Inf false). repeat split.
  - destruct H.
Qed.

Lemma modelled_floats_repr (x : pyfloat) :
  Laws.modelled_floats x = true ->
  exists x', PyFloat.of_str (PyFloat.repr x) = Some x' /\
             PyFloat.same x' x /\ PyFloat.isnan x' = false.
Proof.
  intros H. apply of_str_repr.
  destruct x as [q | b |]; [exact H | exact I | discriminate H].
Qed.

Lemma modelled_floats_number (x : pyfloat) :
  Laws.modelled_floats x = true -> PyFloat.isnan x = false.
Proof. destruct x; [reflexivity | reflexivity | discriminate]. Qed.

Lemma modelled_dates_read (d : date) :
  Laws.modelled_dates d = true ->
  Strptime.strptime (Pandas.isoformat d) = Some d /\
  Pandas.to_datetime (Pandas.isoformat d) = Some d.
Proof.
  unfold Laws.modelled_dates. intros H.
  apply andb_true_iff in H. destruct H as [Hv Hb].
  pose proof (DateFacts.strptime_isoformat d Hv) as Hiso.
  split; [exact Hiso |].
  unfold Pandas.to_datetime. now rewrite Hiso, Hb.
Qed.

(** The modelled library reads back what it writes. *)
Lemma modelled_reads_back :
  Laws.reads_back Generic.modelled Laws.modelled_dates Laws.modelled_floats
                  plain.
Proof.
  split; [| split; [| split]].
  - intros df H. unfold Generic.to_csv.
    change (Generic.read_csv Generic.modelled) with Pandas.read_csv.
    unfold Pandas.read_csv. rewrite map_map.
    induction H as [| r df Hr _ IH]; [reflexivity |].
    cbn [map]. rewrite IH. f_equal.
    destruct Hr as ((d & Hd & Hdate) & Ha & _ & Hcat & (t & Ht & Hplain)).
    destruct (modelled_dates_read d Hdate) as (Hiso & _).
    destruct (modelled_floats_repr _ Ha) as (x' & Hx' & _ & Hnum).
    unfold Pandas.read_row, Laws.as_text, Generic.write_row.
    cbn [Generic.format_date Generic.float_repr Generic.modelled
         csv_Date csv_Amount csv_Category csv_Description].
    rewrite Hd, Ht, (modelled_floats_number _ Ha).
    rewrite (date_text_plain _ _ Hiso), (number_text_plain _ _ Hx' Hnum).
    now rewrite (read_cell_plain _ Hcat), (read_cell_plain _ Hplain).
  - intros ds H.
    cbn [Generic.to_datetime_column Generic.format_date Generic.modelled].
    rewrite map_map.
    induction H as [| d ds Hd _ IH]; [reflexivity |].
    cbn [map]. rewrite IH. f_equal.
    unfold Pandas.to_datetime_cell. apply (modelled_dates_read d Hd).
  - intros xs H.
    cbn [Generic.to_numeric_column Generic.float_repr Generic.modelled].
    rewrite map_map.
    induction H as [| x xs Hx _ IH]; [constructor |].
    cbn [map]. constructor; [| exact IH].
    destruct (modelled_floats_repr x Hx) as (x' & Hx' & Hsame & _).
    unfold Pandas.to_numeric_cell. now rewrite Hx'.
  - exact modelled_floats_number.
Qed.

Lemma same_number (y x : pyfloat) :
  PyFloat.same y x -> PyFloat.isnan x = false -> PyFloat.isnan y = false.
Proof. destruct y, x; simpl; try tauto; discriminate. Qed.

(** Dropping the rows with a missing cell keeps a frame whose columns
    hold no missing cell. *)
Lemma dropna_frame (df : DataFrame) :
  forall ds ys,
    map Date df = map Some ds ->
    Forall2 PyFloat.same ys (map Amount df) ->
    Forall (fun r => PyFloat.isnan (Amount r) = false /\
                     Description r <> None) df ->
    Forall2 same_row
      (Pandas.dropna
         (Generic.frame (map Some ds) ys (map Category df)
                        (map Description df)))
      df.
Proof.
  induction df as [| r df IH]; intros ds ys Hds Hys Hdf.
  - cbn [map]. rewrite frame_no_categories. constructor.
  - destruct ds as [| d ds]; [discriminate Hds |].
    cbn [map] in Hds, Hys. injection Hds as Hd Hds.
    inversion Hys as [| y x ys' xs Hy Hys' E1 E2]. subst.
    inversion Hdf as [| r' df' (Hnum & Hdesc) Hdf' E]. subst.
    cbn [map Generic.frame]. unfold Pandas.dropna. cbn [filter].
    assert (Hkeep : Pandas.notna (mkrow (Some d) y (Category r)
                                        (Description r)) = true).
    { apply notna_spec. cbn. split; [discriminate |].
      split; [now apply same_number with (Amount r) | exact Hdesc]. }
    rewrite Hkeep. constructor.
    + unfold same_row. cbn. repeat split; [now symmetry | exact Hy].
    + now apply IH.
Qed.

(** What a new tracker holds once it has loaded the file written from a
    frame of storable rows. *)
Lemma reload_rows (L : Generic.library) dates floats texts (df : DataFrame) :
  Laws.reads_back L dates floats texts ->
  Forall (Laws.storable dates floats texts) df ->
  Forall2 same_row
    (Generic._clean_data L (Generic.read_csv L (Generic.to_csv L df))) df.
Proof.
  intros (Hread & Hdates & Hnumbers & Hfloats) Hdf.
  rewrite (Hread df Hdf), clean_data_dropna.
  unfold Generic.converted, Generic.to_csv. rewrite !map_map.
  pose (day := fun r : row =>
                 match Date r with Some d => d | None => mkdate 1 1 1 end).
  assert (E1 : map (fun r => raw_Date (Laws.as_text (Generic.write_row L r))) df
               = map (fun d => Some (Generic.format_date L d)) (map day df)).
  { rewrite map_map. apply map_ext_in. intros r Hr.
    rewrite Forall_forall in Hdf.
    destruct (Hdf r Hr) as ((d & Hd & _) & _).
    unfold day. cbn. now rewrite Hd. }
  assert (E2 : map (fun r => raw_Amount (Laws.as_text (Generic.write_row L r)))
                   df
               = map (fun x => Some (Generic.float_repr L x)) (map Amount df)).
  { rewrite map_map. apply map_ext_in. intros r Hr.
    rewrite Forall_forall in Hdf.
    destruct (Hdf r Hr) as (_ & Ha & _).
    cbn. now rewrite (Hfloats _ Ha). }
  assert (E3 : map (fun r =>
                      Text.strip
                        (Pandas.astype_str
                           (raw_Category
                              (Laws.as_text (Generic.write_row L r))))) df
               = map Category df).
  { apply map_ext_in. intros r Hr.
    rewrite Forall_forall in Hdf.
    destruct (Hdf r Hr) as (_ & _ & Hstrip & _).
    cbn. exact Hstrip. }
  assert (E4 : map (fun r =>
                      raw_Description (Laws.as_text (Generic.write_row L r)))
                   df
               = map Description df).
  { apply map_ext_in. intros r Hr.
    rewrite Forall_forall in Hdf.
    destruct (Hdf r Hr) as (_ & _ & _ & _ & (t & Ht & _)).
    cbn. now rewrite Ht. }
  rewrite E1, E2, E3, E4.
  rewrite Hdates.
  2: { apply Forall_map. eapply Forall_impl; [| exact Hdf].
       intros r ((d & Hd & Hok) & _). unfold day. now rewrite Hd. }
  apply dropna_frame.
  - rewrite map_map. apply map_ext_in. intros r Hr.
    rewrite Forall_forall in Hdf.
    destruct (Hdf r Hr) as ((d & Hd & _) & _).
    unfold day. now rewrite Hd.
  - apply Hnumbers. apply Forall_map. eapply Forall_impl; [| exact Hdf].
    intros r (_ & Ha & _). exact Ha.
  - eapply Forall_impl; [| exact Hdf].
    intros r (_ & Ha & _ & _ & (t & Ht & _)).
    split; [now apply Hfloats | rewrite Ht; discriminate].
Qed.




(** * Further properties of the operations *)

Import Behaviour.

(** ** What [add_expense] does in every case *)

(** The two ways a call of [add_expense] ends. *)
Lemma add_expense_cases st date amount category description :
  (exists d a,
     Strptime.strptime date = Some d /\ Pandas.in_bounds d = true /\
     PyFloat.of_str amount = Some a /\ PyFloat.leb a PyFloat.zero = false /\
     add_expense date amount category description st =
     Normal true
       (mkstate (filename st)
          (data st ++ [mkrow (Some d) a (Text.strip category)
                             (Some description)])%list
          (write_file (filename st)
             (Pandas.to_csv
                (data st ++ [mkrow (Some d) a (Text.strip category)
                                   (Some description)])%list)
             (files st))
          (console st ++ [msg_added])%list)) \/
  ((forall d a,
      Strptime.strptime date = Some d -> Pandas.in_bounds d = true ->
      PyFloat.of_str amount = Some a ->
      PyFloat.leb a PyFloat.zero = true) /\
   exists line,
     (line = msg_amount \/ line = msg_date) /\
     add_expense date amount category description st =
     Normal false
       (mkstate (filename st) (data st) (files st)
                (console st ++ [line])%list)).
Proof.
  unfold add_expense, try_except, bind, or_raise, Pandas.to_datetime.
  destruct (Strptime.strptime date) as [d |]; simpl.
  2: { right. split; [intros ? ? H; discriminate H |].
       exists msg_date. split; [now right | reflexivity]. }
  destruct (PyFloat.of_str amount) as [a |]; simpl.
  2: { right. split; [intros ? ? _ _ H; discriminate H |].
       exists msg_date. split; [now right | reflexivity]. }
  destruct (PyFloat.leb a PyFloat.zero) eqn:Hle; simpl.
  { right. split.
    - intros ? ? _ _ H. injection H as <-. exact Hle.
    - exists msg_amount. split; [now left | reflexivity]. }
  destruct (Pandas.in_bounds d) eqn:Hb; simpl.
  - left. exists d, a. repeat split; try reflexivity; assumption.
  - right. split.
    + intros ? ? H Hb' _. injection H as <-. congruence.
    + exists msg_date. split; [now right | reflexivity].
Qed.



Example add_expense_accepts_nan :
  exists st',
    add_expense "2024-01-05" "nan" "Food" "x"
      (__init__ "expenses.csv" no_files []) = Normal true st' /\
    map Amount (data st') = [NaN].
Proof. eexists. split; reflexivity. Qed.

(** ** The breakdown by category *)

Module GroupFacts.

Lemma ascii_compare_refl (a : ascii) : Ascii.compare a a = Eq.
Proof. apply N.compare_refl. Qed.

Lemma compare_refl (s : string) : String.compare s s = Eq.
Proof.
  induction s as [| a s IH]; [reflexivity |]. simpl.
  now rewrite ascii_compare_refl.
Qed.

Lemma compare_lt_trans (a b c : string) :
  String.compare a b = Lt -> String.compare b c = Lt ->
  String.compare a c = Lt.
Proof.
  revert b c. induction a as [| x a IH]; intros [| y b] [| z c]; simpl;
    try discriminate; auto.
  destruct (Ascii.compare x y) eqn:Hxy; try discriminate;
    destruct (Ascii.compare y z) eqn:Hyz; try discriminate; intros H1 H2.
  - apply Ascii.compare_eq_iff in Hxy, Hyz. subst.
    rewrite ascii_compare_refl. now apply IH with b.
  - apply Ascii.compare_eq_iff in Hxy. subst. now rewrite Hyz.
  - apply Ascii.compare_eq_iff in Hyz. subst. now rewrite Hxy.
  - unfold Ascii.compare in *.
    apply N.compare_lt_iff in Hxy. apply N.compare_lt_iff in Hyz.
    assert (E : N.compare (N_of_ascii x) (N_of_ascii z) = Lt).
    { apply N.compare_lt_iff.
      now apply N.lt_trans with (N_of_ascii y). }
    now rewrite E.
Qed.

Lemma compare_gt_lt (a b : string) :
  String.compare a b = Gt -> String.compare b a = Lt.
Proof. intros H. rewrite String.compare_antisym, H. reflexivity. Qed.

Lemma groupby_sum_snoc (df : DataFrame) (r : row) :
  Pandas.groupby_sum (df ++ [r])%list
  = Pandas.group_add (Category r) (Amount r) (Pandas.groupby_sum df).
Proof. unfold Pandas.groupby_sum. now rewrite fold_left_app. Qed.

Lemma group_add_keys key x g k :
  In k (map fst (Pandas.group_add key x g)) <-> k = key \/ In k (map fst g).
Proof.
  induction g as [| [k0 t] g IH]; simpl.
  - intuition.
  - destruct (String.compare key k0) eqn:E; simpl.
    + apply String.compare_eq_iff in E. subst. intuition.
    + intuition.
    + rewrite IH. intuition.
Qed.

Lemma group_add_hd key x g e :
  key_lt e (key, x) -> HdRel key_lt e g ->
  HdRel key_lt e (Pandas.group_add key x g).
Proof.
  intros He Hg. destruct g as [| [k0 t] g]; simpl.
  - constructor. exact He.
  - apply HdRel_inv in Hg.
    destruct (String.compare key k0); constructor; assumption.
Qed.

Lemma group_add_sorted key x g :
  Sorted key_lt g -> Sorted key_lt (Pandas.group_add key x g).
Proof.
  induction 1 as [| [k0 t] g Hs IH Hhd]; simpl.
  - repeat constructor.
  - destruct (String.compare key k0) eqn:E.
    + constructor; [exact Hs |].
      destruct g as [| e g]; constructor. now apply HdRel_inv in Hhd.
    + constructor; [now constructor |]. constructor. exact E.
    + constructor; [exact IH |].
      apply group_add_hd; [| exact Hhd].
      unfold key_lt. simpl. now apply compare_gt_lt.
Qed.

Lemma groupby_sum_sorted (df : DataFrame) :
  Sorted key_lt (Pandas.groupby_sum df).
Proof.
  induction df as [| r df IH] using rev_ind; [constructor |].
  rewrite groupby_sum_snoc. now apply group_add_sorted.
Qed.

Lemma groupby_sum_keys (df : DataFrame) (c : string) :
  In c (map fst (Pandas.groupby_sum df)) <-> In c (map Category df).
Proof.
  induction df as [| r df IH] using rev_ind; [reflexivity |].
  rewrite groupby_sum_snoc, group_add_keys, IH, map_app, in_app_iff.
  simpl. intuition.
Qed.

#[global] Instance key_lt_trans : Transitive key_lt.
Proof. intros a b c. unfold key_lt. apply compare_lt_trans. Qed.

Lemma groupby_sum_strongly_sorted (df : DataFrame) :
  StronglySorted key_lt (Pandas.groupby_sum df).
Proof. apply Sorted_StronglySorted; [exact key_lt_trans |]. apply groupby_sum_sorted. Qed.

Lemma above_not_in (e : string * pyfloat) (g : list (string * pyfloat)) :
  Forall (key_lt e) g -> ~ In (fst e) (map fst g).
Proof.
  intros H Hin. apply in_map_iff in Hin. destruct Hin as (e' & E & Hin).
  rewrite Forall_forall in H. specialize (H e' Hin).
  unfold key_lt in H. rewrite E, compare_refl in H. discriminate H.
Qed.

Lemma strongly_sorted_nodup (g : list (string * pyfloat)) :
  StronglySorted key_lt g -> NoDup (map fst g).
Proof.
  induction 1 as [| e g _ IH Hall]; simpl; constructor; [| exact IH].
  now apply above_not_in.
Qed.

End GroupFacts.

Lemma get_summary_inv st total average by_category :
  get_summary st = Normal (Stats total average by_category) st ->
  total = Pandas.sum (map Amount (data st)) /\
  by_category = Pandas.groupby_sum (data st).
Proof.
  unfold get_summary, bind, get_data, ret.
  destruct (data st); [discriminate |].
  intros H. injection H as <- _ <-. now split.
Qed.

(** X5.  The breakdown [get_summary] returns lists the categories of the
    collection, each exactly once, in strictly ascending order of their
    text. *)
Theorem by_category_keys :
  forall st total average by_category,
    get_summary st = Normal (Stats total average by_category) st ->
    Sorted key_lt by_category /\
    NoDup (map fst by_category) /\
    forall c, In c (map fst by_category) <-> In c (map Category (data st)).
Proof.
  intros st total average by_category H.
  apply get_summary_inv in H. destruct H as (_ & ->).
  split; [apply GroupFacts.groupby_sum_sorted |].
  split.
  - apply GroupFacts.strongly_sorted_nodup,
      GroupFacts.groupby_sum_strongly_sorted.
  - intros c. apply GroupFacts.groupby_sum_keys.
Qed.

Lemma by_category_keys_witness :
  exists total average by_category,
    get_summary two_expenses
      = Normal (Stats total average by_category) two_expenses /\
    NoDup (map fst by_category) /\
    (In "Food" (map fst by_category) <->
     In "Food" (map Category (data two_expenses))).
Proof.
  do 3 eexists. split; [reflexivity |].
  destruct (by_category_keys two_expenses _ _ _ eq_refl) as (_ & Hnd & Hk).
  split; [exact Hnd | exact (Hk "Food")].
Defined.

(** ** More on [filter_expenses] *)

Module FilterFacts.
Import Text.

Lemma isspace_lower (c : ascii) : isspace (lower_ascii c) = isspace c.
Proof. destruct c as [[] [] [] [] [] [] [] []]; reflexivity. Qed.

Lemma lower_ascii_idempotent (c : ascii) :
  lower_ascii (lower_ascii c) = lower_ascii c.
Proof. destruct c as [[] [] [] [] [] [] [] []]; reflexivity. Qed.

Lemma lower_idempotent (s : string) : lower (lower s) = lower s.
Proof.
  induction s as [| c r IH]; [reflexivity |]. simpl.
  now rewrite lower_ascii_idempotent, IH.
Qed.

Lemma lstrip_lower (s : string) : lstrip (lower s) = lower (lstrip s).
Proof.
  induction s as [| c r IH]; [reflexivity |]. simpl.
  rewrite isspace_lower. now destruct (isspace c).
Qed.

Lemma rstrip_lower (s : string) : rstrip (lower s) = lower (rstrip s).
Proof.
  induction s as [| c r IH]; [reflexivity |]. simpl.
  rewrite IH, isspace_lower.
  destruct (rstrip r); simpl; [now destruct (isspace c) | reflexivity].
Qed.

Lemma strip_lower (s : string) : strip (lower s) = lower (strip s).
Proof. unfold strip. now rewrite lstrip_lower, rstrip_lower. Qed.

Lemma normalize_idempotent (c : string) :
  normalize (normalize c) = normalize c.
Proof.
  unfold normalize.
  now rewrite strip_lower, TextFacts.strip_idempotent, lower_idempotent.
Qed.

Lemma normalize_strip (c : string) : normalize (strip c) = normalize c.
Proof. unfold normalize. now rewrite TextFacts.strip_idempotent. Qed.

Lemma working_copy_idempotent (r : row) :
  working_copy (working_copy r) = working_copy r.
Proof. unfold working_copy. simpl. now rewrite normalize_idempotent. Qed.

Lemma optional_filter {T} (o : option T) (f : T -> row -> bool)
  (l : DataFrame) :
  match o with Some s => filter (f s) l | None => l end
  = filter (fun r => match o with Some s => f s r | None => true end) l.
Proof. destruct o; [reflexivity | symmetry; apply filter_all]. Qed.

Lemma stages_keeps sd ed cats mn mx (l : DataFrame) :
  by_max mx (by_min mn (by_categories cats (by_end ed (by_start sd l))))
  = filter (keeps sd ed cats mn mx) l.
Proof.
  unfold by_max, by_min, by_categories, by_end, by_start.
  rewrite !optional_filter, !filter_twice.
  apply filter_ext. intros r. unfold keeps. now rewrite !andb_assoc.
Qed.

Lemma filter_expenses_keeps st sd ed cats mn mx :
  filter_expenses sd ed cats mn mx st
  = Normal (filter (keeps sd ed cats mn mx) (map working_copy (data st))) st.
Proof. rewrite filter_expenses_stages. now rewrite stages_keeps. Qed.

Lemma filter_idempotent {A} (p : A -> bool) (l : list A) :
  filter p (filter p l) = filter p l.
Proof.
  rewrite filter_twice. apply filter_ext. intros x. now destruct (p x).
Qed.

Lemma map_working_copy_fixed (p : row -> bool) (l : DataFrame) :
  map working_copy (filter p (map working_copy l))
  = filter p (map working_copy l).
Proof.
  induction l as [| r l IH]; [reflexivity |]. simpl.
  destruct (p (working_copy r)); simpl; [| exact IH].
  now rewrite working_copy_idempotent, IH.
Qed.

Ltac date_order :=
  unfold date_leb;
  repeat rewrite ?orb_true_iff, ?andb_true_iff, ?Z.ltb_lt, ?Z.eqb_eq,
    ?Z.leb_le;
  lia.

Lemma date_leb_refl (d : date) : date_leb d d = true.
Proof. date_order. Qed.

Lemma date_leb_trans (a b c : date) :
  date_leb a b = true -> date_leb b c = true -> date_leb a c = true.
Proof. date_order. Qed.

End FilterFacts.

(** X9.  Filtering what [filter_expenses] returned, with the same
    arguments, returns it again. *)
Theorem filter_expenses_idempotent :
  forall st sd ed cats mn mx,
    exists selected,
      filter_expenses sd ed cats mn mx st = Normal selected st /\
      filter_expenses sd ed cats mn mx (with_data selected st)
        = Normal selected (with_data selected st).
Proof.
  intros st sd ed cats mn mx. eexists.
  split; [apply FilterFacts.filter_expenses_keeps |].
  rewrite FilterFacts.filter_expenses_keeps. cbn [with_data data].
  now rewrite FilterFacts.map_working_copy_fixed,
    FilterFacts.filter_idempotent.
Qed.

(** X10.  With a start date that falls after the end date,
    [filter_expenses] returns no record. *)
Theorem filter_expenses_crossed_dates :
  forall st s e first last cats mn mx,
    Pandas.to_datetime s = Some first ->
    Pandas.to_datetime e = Some last ->
    date_leb first last = false ->
    filter_expenses (Some s) (Some e) cats mn mx st = Normal [] st.
Proof.
  intros st s e first last cats mn mx Hs He Hcross.
  rewrite FilterFacts.filter_expenses_keeps. f_equal.
  apply filter_none. intros r. unfold keeps. rewrite Hs, He.
  destruct (Date r) as [d |]; [| reflexivity].
  unfold Pandas.ts_le, Pandas.ts_ge.
  destruct (date_leb first d) eqn:H1; [| reflexivity].
  destruct (date_leb d last) eqn:H2; [| reflexivity].
  rewrite (FilterFacts.date_leb_trans _ _ _ H1 H2) in Hcross.
  discriminate Hcross.
Qed.

Lemma filter_expenses_crossed_dates_witness :
  filter_expenses (Some "2024-01-06") (Some "2024-01-05") None None None
    two_expenses = Normal [] two_expenses.
Proof.
  exact (filter_expenses_crossed_dates two_expenses
           "2024-01-06" "2024-01-05" (mkdate 2024 1 6) (mkdate 2024 1 5)
           None None None eq_refl eq_refl eq_refl).
Defined.

(** X11.  A record that [add_expense] has just accepted is among the
    records [filter_expenses] returns for its own date text as start and
    end date and its own category text as the only category: the date
    bounds are inclusive and the category is matched however it was
    typed. *)
Theorem added_record_is_found :
  forall st date amount category description st',
    add_expense date amount category description st = Normal true st' ->
    exists d a selected,
      Strptime.strptime date = Some d /\
      PyFloat.of_str amount = Some a /\
      filter_expenses (Some date) (Some date) (Some [category]) None None st'
        = Normal selected st' /\
      In (mkrow (Some d) a (normalize category) (Some description)) selected.
Proof.
  intros st date amount category description st' Hrun.
  destruct (add_expense_cases st date amount category description)
    as [(d & a & Hd & Hb & Ha & _ & E) | (_ & line & _ & E)];
    rewrite E in Hrun; [| discriminate Hrun].
  injection Hrun as <-.
  exists d, a. eexists. split; [exact Hd |]. split; [exact Ha |].
  split; [apply FilterFacts.filter_expenses_keeps |].
  cbn [data]. apply filter_In. split.
  - rewrite map_app. apply in_or_app. right. left.
    unfold working_copy. cbn [Date Amount Category Description].
    now rewrite FilterFacts.normalize_strip.
  - unfold keeps, Pandas.to_datetime. rewrite Hd, Hb. cbn.
    rewrite FilterFacts.date_leb_refl, String.eqb_refl. reflexivity.
Qed.

Lemma added_record_is_found_witness :
  exists st' selected,
    add_expense "2024-01-07" "25" " FOOD " "tea" two_expenses
      = Normal true st' /\
    filter_expenses (Some "2024-01-07") (Some "2024-01-07")
      (Some [" FOOD "]) None None st' = Normal selected st' /\
    In (mkrow (Some (mkdate 2024 1 7)) (Fin 25) "food" (Some "tea")) selected.
Proof.
  set (r := mkrow (Some (mkdate 2024 1 7)) (Fin 25) "FOOD" (Some "tea")).
  set (st1 := mkstate "expenses.csv" (data two_expenses ++ [r])%list
                (write_file "expenses.csv"
                   (Pandas.to_csv (data two_expenses ++ [r])%list) no_files)
                [msg_added]).
  assert (Hadd : add_expense "2024-01-07" "25" " FOOD " "tea" two_expenses
                 = Normal true st1) by reflexivity.
  destruct (added_record_is_found two_expenses
              "2024-01-07" "25" " FOOD " "tea" st1 Hadd)
    as (d & a & selected & Hd & Ha & Hrun & Hin).
  compute in Hd. injection Hd as <-.
  compute in Ha. injection Ha as <-.
  exists st1, selected. split; [exact Hadd |]. split; [exact Hrun |].
  exact Hin.
Defined.

(** ** The report and the menu *)

Module DriverFacts.
Import Driver.

Lemma untouched_refl (s : state) : untouched s s.
Proof. now repeat split. Qed.

Lemma untouched_trans (a b c : state) :
  untouched a b -> untouched b c -> untouched a c.
Proof.
  unfold untouched. intros (H1 & H2 & H3) (H4 & H5 & H6).
  repeat split; congruence.
Qed.

Lemma print_all_untouched (lines : list string) (s : state) :
  exists s', print_all lines s = Normal tt s' /\ untouched s s'.
Proof.
  revert s. induction lines as [| line lines IH]; intros s; simpl.
  - exists s. split; [reflexivity | apply untouched_refl].
  - unfold bind, print.
    destruct (IH (mkstate (filename s) (data s) (files s)
                          (console s ++ [line])%list)) as (s' & E & H).
    exists s'. split; [exact E | exact H].
Qed.

Lemma plot_untouched (R : renderer) (kind : chart) (s : state) :
  exists s', plot R kind s = Normal tt s' /\ untouched s s'.
Proof.
  unfold plot, bind, get_data. destruct (data s) as [| r df] eqn:E.
  - eexists. split; [reflexivity |]. now repeat split.
  - destruct (print_all_untouched (draw R kind (r :: df)) s)
      as (s' & E' & H).
    exists s'. split; [exact E' | exact H].
Qed.

Lemma generate_report_untouched (R : renderer) (s : state) :
  exists text, generate_report R s = Normal text s.
Proof.
  unfold generate_report, get_summary, bind, get_data, ret.
  destruct (data s); eexists; reflexivity.
Qed.

Lemma print_printed (line : string) (s : state) :
  print line s = Normal tt (printed line s).
Proof. reflexivity. Qed.

Lemma untouched_printed (line : string) (s s' : state) :
  untouched s s' -> untouched s (printed line s').
Proof. intros H. exact H. Qed.

Lemma filename_printed (line : string) (s : state) :
  filename (printed line s) = filename s.
Proof. reflexivity. Qed.

Ltac tail_of_input := repeat apply incl_tl; apply incl_refl.

(** Runs the prints at the head of the goal, keeping the states folded. *)
Ltac run_prints := repeat (rewrite print_printed; cbv beta iota).

Ltac tracker_kept :=
  repeat first [ apply untouched_refl | apply untouched_printed ].

Ltac same_filename :=
  cbn [filename]; rewrite ?filename_printed; reflexivity.

(** The turn that draws a chart, from the state [s]. *)
Ltac plot_turn s :=
  match goal with
  | |- context [plot ?R ?kind ?st] =>
      let s' := fresh "s'" in
      let E := fresh "E" in
      let Hkept := fresh "Hkept" in
      let Hs := fresh "Hs" in
      destruct (plot_untouched R kind st) as (s' & E & Hkept);
      rewrite E; cbv beta iota;
      assert (Hs : untouched s s')
        by (eapply untouched_trans; [| exact Hkept]; tracker_kept);
      split; [cbn [List.length]; lia |]; split; [tail_of_input |];
      split; [apply Hs |]; split; [intros _; exact Hs | discriminate]
  end.

(** One turn of the menu reads at least one line and does not raise; it
    leaves the tracker as it was unless the choice typed is [1], and
    leaves the loop only when the choice typed is [6]. *)
Lemma turn_spec (R : renderer) (inp : list string) (s : state) :
  match turn R inp s with
  | Done again rest s' =>
      (List.length rest < List.length inp)%nat /\ incl rest inp /\
      filename s' = filename s /\
      (hd_error inp <> Some "1" -> untouched s s') /\
      (again = false -> hd_error inp = Some "6")
  | EndOfInput s' => untouched s s'
  | Uncaught _ _ => False
  end.
Proof.
  unfold turn, io_bind, say, call, input, io_ret. run_prints.
  destruct inp as [| choice inp]; [tracker_kept |].
  cbn [hd_error].
  destruct (String.eqb_spec choice "1") as [-> | H1].
  { run_prints.
    destruct inp as [| date inp]; [tracker_kept |]. run_prints.
    destruct inp as [| amount inp]; [tracker_kept |]. run_prints.
    destruct inp as [| category inp]; [tracker_kept |]. run_prints.
    destruct inp as [| description inp]; [tracker_kept |].
    match goal with
    | |- context [add_expense ?d ?a ?c ?ds ?st] =>
        destruct (add_expense_cases st d a c ds)
          as [(d0 & a0 & _ & _ & _ & _ & E) | (_ & line & _ & E)];
        rewrite E
    end;
    (split; [cbn [List.length]; lia |]); (split; [tail_of_input |]);
    (split; [same_filename |]);
    (split; [intros H; now destruct H | discriminate]). }
  destruct (String.eqb_spec choice "2") as [-> | H2].
  { run_prints. unfold get_summary, bind, get_data, ret.
    match goal with
    | |- context [data ?st] => change (data st) with (data s)
    end.
    destruct (data s); run_prints;
      (split; [cbn [List.length]; lia |]); (split; [tail_of_input |]);
      (split; [same_filename |]);
      (split; [intros _; tracker_kept | discriminate]). }
  destruct (String.eqb_spec choice "3") as [-> | H3].
  { run_prints.
    destruct inp as [| start inp]; [tracker_kept |]. run_prints.
    destruct inp as [| end_ inp]; [tracker_kept |]. run_prints.
    destruct inp as [| cat inp]; [tracker_kept |].
    rewrite filter_expenses_stages. run_prints.
    split; [cbn [List.length]; lia |]. split; [tail_of_input |].
    split; [same_filename |].
    split; [intros _; tracker_kept | discriminate]. }
  destruct (String.eqb_spec choice "4") as [-> | H4].
  { match goal with
    | |- context [generate_report R ?st] =>
        destruct (generate_report_untouched R st) as (text & E); rewrite E
    end.
    run_prints.
    split; [cbn [List.length]; lia |]. split; [tail_of_input |].
    split; [same_filename |].
    split; [intros _; tracker_kept | discriminate]. }
  destruct (String.eqb_spec choice "5") as [-> | H5].
  { run_prints. destruct inp as [| opt inp]; [tracker_kept |].
    unfold plot_category_bar, plot_time_series, plot_pie_by_category,
      plot_histogram.
    destruct (String.eqb opt "1"); [plot_turn s |].
    destruct (String.eqb opt "2"); [plot_turn s |].
    destruct (String.eqb opt "3"); [plot_turn s |].
    destruct (String.eqb opt "4"); [plot_turn s |].
    split; [cbn [List.length]; lia |]. split; [tail_of_input |].
    split; [same_filename |].
    split; [intros _; tracker_kept | discriminate]. }
  destruct (String.eqb_spec choice "6") as [-> | H6].
  { split; [cbn [List.length]; lia |]. split; [tail_of_input |].
    split; [same_filename |].
    split; [intros _; tracker_kept | reflexivity]. }
  run_prints.
  split; [cbn [List.length]; lia |]. split; [tail_of_input |].
  split; [same_filename |].
  split; [intros _; tracker_kept | discriminate].
Qed.

Lemma hd_not_in (x : string) (inp : list string) :
  ~ In x inp -> hd_error inp <> Some x.
Proof.
  destruct inp as [| y inp]; [discriminate |].
  intros H E. injection E as ->. apply H. now left.
Qed.

Lemma loop_untouched (R : renderer) (fuel : nat) :
  forall inp s,
    ~ In "1" inp -> untouched s (ended_in (loop R fuel inp s)).
Proof.
  induction fuel as [| fuel IH]; intros inp s Hno;
    [apply untouched_refl |].
  cbn [loop]. unfold io_bind.
  pose proof (turn_spec R inp s) as H.
  destruct (turn R inp s) as [again rest s' | s' | e s'];
    [| exact H | destruct H].
  destruct H as (_ & Hincl & _ & Hkept & _).
  specialize (Hkept (hd_not_in _ _ Hno)).
  destruct again; [| exact Hkept].
  eapply untouched_trans; [exact Hkept |].
  apply IH. intros Hin. apply Hno, Hincl, Hin.
Qed.

End DriverFacts.

Import Driver.

(** X12.  [generate_report] returns the no-data message exactly when the
    collection is empty, and leaves the state as it was. *)
Theorem generate_report_no_data :
  forall R st,
    exists text,
      generate_report R st = Normal text st /\
      (text = msg_no_data <-> data st = []).
Proof.
  intros R st. unfold generate_report, get_summary, bind, get_data, ret.
  destruct (data st) as [| r df]; eexists; (split; [reflexivity |]).
  - now split.
  - split; intros H; discriminate H.
Qed.

(** X14.  When no line of the input is [1], the menu of [main] leaves the
    collection and every file as [__init__] made them, however the run
    ends: only the choice [1] adds a record or writes the file. *)
Theorem main_changes_only_by_adding :
  forall R fuel fs stdin,
    ~ In "1" stdin ->
    untouched (__init__ "expenses.csv" fs [])
              (ended_in (main R fuel fs stdin)).
Proof.
  intros R fuel fs stdin H. unfold main.
  now apply DriverFacts.loop_untouched.
Qed.

Lemma main_changes_only_by_adding_witness :
  untouched (__init__ "expenses.csv" legacy_files [])
    (ended_in (main silent 9 legacy_files
                 ["2"; "3"; ""; "blank"; "food"; "4"; "5"; "3"; "6"])).
Proof.
  apply (main_changes_only_by_adding silent 9 legacy_files
           ["2"; "3"; ""; "blank"; "food"; "4"; "5"; "3"; "6"]).
  cbn. intros H. repeat (destruct H as [H | H]; [discriminate H |]).
  exact H.
Defined.

(** ** Starting the tracker *)

(** X16.  Building the tracker again over the files the first build left
    gives the same tracker: the same collection, and no file changed by
    the second build. *)
Theorem init_twice :
  forall name fs out,
    __init__ name (files (__init__ name fs out)) out = __init__ name fs out.
Proof.
  intros name fs out. unfold __init__ at 2 3.
  destruct (fs name) as [f |] eqn:E; cbn [files].
  - unfold __init__. now rewrite E.
  - unfold __init__, write_file. now rewrite String.eqb_refl.
Qed.

Lemma add_expense_checked st date amount category description :
  Forall checked (data st) ->
  Forall checked
    (data (state_of (add_expense date amount category description st))).
Proof.
  intros H.
  destruct (add_expense_cases st date amount category description)
    as [(d & a & Hd & _ & _ & Hle & E) | (_ & line & _ & E)];
    rewrite E; cbn [state_of data]; [| exact H].
  apply Forall_app. split; [exact H |]. constructor; [| constructor].
  unfold checked. cbn [Date Amount Category Description].
  split; [exists d; split; [reflexivity | now apply strptime_valid with date] |].
  split; [exact Hle |].
  split; [apply TextFacts.strip_idempotent | discriminate].
Qed.

(** X17.  In a tracker built where no file exists, after any series of
    [add_expense] calls every record held has a date that exists in the
    calendar, an amount that is not less than or equal to zero, a trimmed
    category and a description; a series of calls keeps this of any
    collection that has it. *)
Theorem added_records_checked :
  (forall name fs out inputs,
     fs name = None ->
     Forall checked (data (add_all inputs (__init__ name fs out)))) /\
  (forall inputs st,
     Forall checked (data st) ->
     Forall checked (data (add_all inputs st))).
Proof.
  assert (Hall : forall inputs st,
            Forall checked (data st) ->
            Forall checked (data (add_all inputs st))).
  { induction inputs as [| [[[date amount] category] description] rest IH];
      intros st H; [exact H |].
    cbn [add_all].
    pose proof (add_expense_checked st date amount category description H)
      as H'.
    destruct (add_expense date amount category description st)
      as [b st' | e st']; cbn [state_of] in H'; [now apply IH | exact H']. }
  split; [| exact Hall].
  intros name fs out inputs Hfs. apply Hall.
  unfold __init__. rewrite Hfs. constructor.
Qed.

Lemma added_records_checked_witness :
  Forall checked
    (data (add_all [("2024-02-29", "12.5", " Food ", "cake");
                    ("2023-02-29", "1", "Food", "no such day");
                    ("2024-03-01", "0", "Food", "free")]
             (__init__ "expenses.csv" no_files []))).
Proof.
  apply (proj1 added_records_checked "expenses.csv" no_files []).
  reflexivity.
Defined.

(** Loading does not check the sign of an amount: a stored negative
    amount is held. *)
Example loaded_amount_not_checked :
  map Amount
    (data (__init__ "expenses.csv"
             (write_file "expenses.csv"
                [mkcsv "2024-01-05" "-5" "Food" "refund"] no_files) []))
  = [Fin (-5)].
Proof. reflexivity. Qed.
